(** * Feed store and feed item view of the prediction feed

    A shallow embedding of [src/context/PostContext.tsx] (the provider that
    pages, merges and deduplicates predictions and news) and of the like
    toggle of [src/components/Post.tsx], followed by the properties of the
    written specification that concern them.

    Conventions of the embedding.
    - An [async] function is a computation in the monad [M]: it threads the
      React state it owns, may end by throwing, and records the remote
      requests and console output it performs, in order.
    - A React state variable read inside a callback is the value captured
      when the component rendered ([posts], [loading], [localPost] ...),
      whereas an updater passed to a setter ([setPosts (prev => ...)])
      receives the current value.  Each callback therefore takes the
      captured state as a separate argument; a call made after the component
      has rendered passes the current state for it.
    - [created_at] holds [new Date(created_at).getTime()], the only use the
      feed store makes of the timestamp; the backend column is a
      [timestamptz], so the value is never [NaN].
    - Counters come from [integer] columns and are integers; [odds] is a
      JavaScript number.
    - A string is the sequence of its code units, each of them below 256. *)

From Stdlib Require Import String Ascii ZArith QArith List Bool Lia.
From Stdlib Require Import Permutation Sorted SpecFloat.
Import ListNotations.

Set Implicit Arguments.
Open Scope string_scope.
Open Scope list_scope.
Open Scope Z_scope.

(** ** The JavaScript built-ins the source relies on *)

Module Js.

(** A JavaScript number, by its value: [Finite q] is the binary64 whose
    value is [q].  Negative zero is not told apart from zero; the source
    only tests [isNaN] and hands the number to the insert, whose JSON
    body writes both as [0]. *)
Inductive number : Type :=
| NaN
| Infinity (negative : bool)
| Finite (q : Q).

Definition isNaN (x : number) : bool :=
  match x with NaN => true | _ => false end.

(** [s || d] for a possibly missing string: the empty string, [undefined]
    and [null] are falsy. *)
Definition or_else (s : option string) (d : string) : string :=
  match s with
  | Some (String c r) => String c r
  | Some EmptyString | None => d
  end.

(** [Boolean(s)] for an optional string field. *)
Definition truthy (s : option string) : bool :=
  match s with
  | Some (String _ _) => true
  | Some EmptyString | None => false
  end.

(** [Boolean(b)] for an optional boolean field. *)
Definition truthy_flag (b : option bool) : bool :=
  match b with Some true => true | _ => false end.

(** [s.replace(pat, rep)] with a one-character string pattern: only the
    first occurrence is replaced. *)
Fixpoint replace (s : string) (pat rep : ascii) : string :=
  match s with
  | EmptyString => EmptyString
  | String c r =>
      if Ascii.eqb c pat then String rep r else String c (replace r pat rep)
  end.

Definition is_digit (c : ascii) : bool :=
  let n := N_of_ascii c in (48 <=? n)%N && (n <=? 57)%N.

Definition digit_value (c : ascii) : Z := Z.of_N (N_of_ascii c) - 48.

(** White space and line terminators among the code units below 256:
    TAB, LF, VT, FF, CR, SP and the no-break space U+00A0. *)
Definition is_white (c : ascii) : bool :=
  let n := N_of_ascii c in
  ((9 <=? n)%N && (n <=? 13)%N) || (n =? 32)%N || (n =? 160)%N.

Fixpoint trim_start (s : string) : string :=
  match s with
  | String c r => if is_white c then trim_start r else s
  | EmptyString => s
  end.

(** The longest run of decimal digits at the front of [s]: the value
    accumulated on top of [acc], the number of digits read on top of [n],
    and what follows. *)
Fixpoint digits (s : string) (acc n : Z) : Z * Z * string :=
  match s with
  | String c r =>
      if is_digit c then digits r (10 * acc + digit_value c) (n + 1)
      else (acc, n, s)
  | EmptyString => (acc, n, s)
  end.

(** [ExponentPart]: [e] or [E], an optional sign, at least one digit.
    When it is absent or incomplete the exponent is 0 and the literal ends
    before it. *)
Definition exponent_part (s : string) : Z :=
  match s with
  | String c r =>
      if Ascii.eqb c "e" || Ascii.eqb c "E" then
        match r with
        | String "-" r' =>
            let '(v, n, _) := digits r' 0 0 in if 0 <? n then - v else 0
        | String "+" r' =>
            let '(v, n, _) := digits r' 0 0 in if 0 <? n then v else 0
        | _ =>
            let '(v, n, _) := digits r 0 0 in if 0 <? n then v else 0
        end
      else 0
  | EmptyString => 0
  end.

(** The value of a binary64 that is not [NaN]. *)
Definition of_binary64 (x : spec_float) : number :=
  match x with
  | S754_zero _ => Finite 0
  | S754_infinity s => Infinity s
  | S754_nan => NaN
  | S754_finite s m e =>
      Finite (Qred (inject_Z (if s then Zneg m else Zpos m) * Qpower (2 # 1) e))
  end.

(** The Number value of the decimal [m * 10 ^ k], [m] not negative, with
    the sign given apart: the nearest binary64, ties to even, an infinity
    on overflow.  The rounding is that of the library's specification of
    binary64 arithmetic, at precision 53 and maximal exponent 1024. *)
Definition round_decimal (negative : bool) (m k : Z) : spec_float :=
  match m with
  | Zpos p =>
      if 0 <=? k
      then binary_round 53 1024 negative (Z.to_pos (Zpos p * 10 ^ k)) 0
      else SFdiv 53 1024 (S754_finite negative p 0)
                 (S754_finite false (Z.to_pos (10 ^ (- k))) 0)
  | _ => S754_zero negative
  end.

(** [StrUnsignedDecimalLiteral]: [Infinity], or digits with an optional
    fraction and exponent; at least one digit is required. *)
Definition unsigned_literal (negative : bool) (s : string) : number :=
  if String.prefix "Infinity" s then Infinity negative
  else
    let '(ip, ni, r1) := digits s 0 0 in
    let '(m, nf, r2) :=
      match r1 with
      | String "." r => digits r ip 0
      | _ => (ip, 0, r1)
      end in
    if 0 <? ni + nf then
      of_binary64 (round_decimal negative m (exponent_part r2 - nf))
    else NaN.

(** [parseFloat(s)]: leading white space is skipped, the longest prefix
    that is a [StrDecimalLiteral] is read, and [NaN] is returned when
    there is none. *)
Definition parseFloat (s : string) : number :=
  match trim_start s with
  | String "-" r => unsigned_literal true r
  | String "+" r => unsigned_literal false r
  | t => unsigned_literal false t
  end.

(** [Array.prototype.sort(compareFn)].  The sort is stable, so for a
    consistent comparator its result is determined: [x] is placed before
    the first element it does not have to follow. *)
Section Sort.
Variable A : Type.
Variable compareFn : A -> A -> Z.

(** [a] may stand before [b]. *)
Definition before (a b : A) : Prop := compareFn a b <= 0.

Fixpoint insert (x : A) (l : list A) : list A :=
  match l with
  | [] => [x]
  | y :: l' => if compareFn x y <=? 0 then x :: l else y :: insert x l'
  end.

Fixpoint sort (l : list A) : list A :=
  match l with
  | [] => []
  | x :: l' => insert x (sort l')
  end.
End Sort.

End Js.

(** ** Effects: state, exceptions and the trace of remote requests *)

(** An error object handed over by the backend client, either in the
    [error] field of a response or as the reason of a rejected promise. *)
Record RemoteError : Type := { message : string }.

(** What a [throw] of the source can carry: an [Error] built by the code
    itself, or an error of the backend passed on. *)
Inductive exn : Type :=
| Error (msg : string)
| RemoteOperationFailed (e : RemoteError).

Definition AuthenticationRequired : exn := Error "User not authenticated".
Definition InvalidInput : exn := Error "Invalid odds value".

(** The [{ data, error }] object a query resolves to. *)
Record Response (D : Type) : Type := { data : option D; error : option RemoteError }.

(** How an awaited promise settles. *)
Inductive settled (A : Type) : Type :=
| Fulfilled (a : A)
| Rejected (e : RemoteError).
Arguments Rejected {A} e.

Inductive outcome (A : Type) : Type :=
| Return (a : A)
| Throw (e : exn).
Arguments Throw {A} e.

(** ** The rows of the feed *)

Record Profile : Type := { username : string; avatar_url : string }.

(** [interface Post]: a prediction row joined with its author. *)
Module Post.
Record t : Type := {
  id : string;
  content : string;
  image_url : option string;
  odds : Js.number;
  confidence : Z;
  created_at : Z;
  likes : Z;
  comments : Z;
  shares : Z;
  user : Profile
}.
End Post.

(** [interface News]: a news row joined with its author. *)
Module News.
Record t : Type := {
  id : string;
  title : string;
  source : option string;
  content : string;
  image_url : option string;
  created_at : Z;
  likes : Z;
  comments : Z;
  shares : Z;
  user : Profile
}.
End News.

(** An element of [(Post | News)[]]. *)
Inductive FeedItem : Type :=
| Prediction (p : Post.t)
| NewsItem (n : News.t).

Definition item_id (x : FeedItem) : string :=
  match x with Prediction p => Post.id p | NewsItem n => News.id n end.

Definition item_created_at (x : FeedItem) : Z :=
  match x with Prediction p => Post.created_at p | NewsItem n => News.created_at n end.

(** The object given to [insert] by [addPost]. *)
Record PostRow : Type := {
  row_content : string;
  row_image_url : option string;
  row_odds : Js.number;
  row_confidence : Z;
  row_user_id : string;
  row_likes : Z;
  row_comments : Z;
  row_shares : Z
}.

(** The object given to [insert] by [addNews]. *)
Record NewsRow : Type := {
  nrow_title : string;
  nrow_source : option string;
  nrow_content : string;
  nrow_image_url : option string;
  nrow_user_id : string;
  nrow_likes : Z;
  nrow_comments : Z;
  nrow_shares : Z
}.

(** The authenticated user, of which the source reads [user.id]. *)
Record User : Type := { user_id : string }.

(** ** Requests, console output and the backend *)

Inductive event : Type :=
| GetUser
| Select (table : string) (from to : Z)
| InsertPost (row : PostRow)
| InsertNews (row : NewsRow)
| InsertLike (table idField id uid : string)
| DeleteLike (table idField id uid : string)
| ConsoleError (msg : string) (e : exn).

(** The hosted backend as the client sees it: how each request settles. *)
Record Backend : Type := {
  auth_getUser : settled (option User);
  select_posts : Z -> Z -> settled (Response (list Post.t));
  select_news : Z -> Z -> settled (Response (list News.t));
  insert_post : PostRow -> settled (Response Post.t);
  insert_news : NewsRow -> settled (Response News.t);
  insert_like : string -> string -> string -> string -> settled (Response unit);
  delete_like : string -> string -> string -> string -> settled (Response unit)
}.

(** ** The monad of asynchronous callbacks *)

Definition M (S A : Type) : Type := S -> outcome A * S * list event.

Section Monad.
Variable S : Type.

Definition ret {A} (a : A) : M S A := fun s => (Return a, s, []).

Definition throw {A} (e : exn) : M S A := fun s => (Throw e, s, []).

Definition bind {A B} (m : M S A) (k : A -> M S B) : M S B :=
  fun s =>
    match m s with
    | (Return a, s1, t1) => let '(o, s2, t2) := k a s1 in (o, s2, t1 ++ t2)
    | (Throw e, s1, t1) => (Throw e, s1, t1)
    end.

(** A state setter called with an updater function. *)
Definition update (f : S -> S) : M S unit := fun s => (Return tt, f s, []).

Definition emit (ev : event) : M S unit := fun s => (Return tt, s, [ev]).

(** [await p] where [p] is the promise of the request [ev]. *)
Definition await {A} (ev : event) (p : settled A) : M S A :=
  fun s =>
    match p with
    | Fulfilled a => (Return a, s, [ev])
    | Rejected e => (Throw (RemoteOperationFailed e), s, [ev])
    end.

(** [await Promise.all([p1, p2])]: both requests are issued; the result
    is the pair of values unless one of them rejects.  When both reject,
    JavaScript passes on whichever rejection comes first in time; the
    first of the array is taken here. *)
Definition await_all {A B} (ev1 : event) (p1 : settled A)
    (ev2 : event) (p2 : settled B) : M S (A * B) :=
  fun s =>
    match p1, p2 with
    | Fulfilled a, Fulfilled b => (Return (a, b), s, [ev1; ev2])
    | Rejected e, _ => (Throw (RemoteOperationFailed e), s, [ev1; ev2])
    | _, Rejected e => (Throw (RemoteOperationFailed e), s, [ev1; ev2])
    end.

(** [try { body } catch (error) { handler error }]. *)
Definition try_catch {A} (body : M S A) (handler : exn -> M S A) : M S A :=
  fun s =>
    match body s with
    | (Return a, s1, t1) => (Return a, s1, t1)
    | (Throw e, s1, t1) => let '(o, s2, t2) := handler e s1 in (o, s2, t1 ++ t2)
    end.

(** [try { body } finally { final }]. *)
Definition try_finally {A} (body : M S A) (final : M S unit) : M S A :=
  fun s =>
    let '(o, s1, t1) := body s in
    match final s1 with
    | (Return _, s2, t2) => (o, s2, t1 ++ t2)
    | (Throw e, s2, t2) => (Throw e, s2, t1 ++ t2)
    end.

(** [if (response.error) throw response.error]. *)
Definition throw_if_error {D} (r : Response D) : M S unit :=
  match error r with
  | Some e => throw (RemoteOperationFailed e)
  | None => ret tt
  end.
End Monad.

Arguments ret {S A} a.
Arguments throw {S A} e.
Arguments update {S} f.
Arguments emit {S} ev.
Arguments await {S A} ev p.
Arguments await_all {S A B} ev1 p1 ev2 p2.
Arguments throw_if_error {S D} r.

Notation "x <- m ;; k" := (bind m (fun x => k))
  (at level 61, m at next level, right associativity).
Notation "m ;; k" := (bind m (fun _ => k))
  (at level 61, right associativity).

Definition result_of {S A} (r : outcome A * S * list event) : outcome A := fst (fst r).
Definition state_of {S A} (r : outcome A * S * list event) : S := snd (fst r).
Definition trace_of {S A} (r : outcome A * S * list event) : list event := snd r.

(** ** The feed store: [src/context/PostContext.tsx] *)

Module PostContext.

Definition POSTS_PER_PAGE : Z := 20.

(** The four [useState] cells of [PostProvider]. *)
Record State : Type := {
  posts : list FeedItem;
  loading : bool;
  hasMore : bool;
  page : Z
}.

Definition initial : State :=
  {| posts := []; loading := false; hasMore := true; page := 0 |}.

Definition setPosts (f : list FeedItem -> list FeedItem) : M State unit :=
  update (fun s => {| posts := f (posts s); loading := loading s;
                      hasMore := hasMore s; page := page s |}).

Definition setLoading (b : bool) : M State unit :=
  update (fun s => {| posts := posts s; loading := b;
                      hasMore := hasMore s; page := page s |}).

Definition setHasMore (b : bool) : M State unit :=
  update (fun s => {| posts := posts s; loading := loading s;
                      hasMore := b; page := page s |}).

Definition setPage (f : Z -> Z) : M State unit :=
  update (fun s => {| posts := posts s; loading := loading s;
                      hasMore := hasMore s; page := f (page s) |}).

(** [response.data || []], at the type of the merged feed. *)
Definition post_rows (r : Response (list Post.t)) : list FeedItem :=
  match data r with Some rows => map Prediction rows | None => [] end.

Definition news_rows (r : Response (list News.t)) : list FeedItem :=
  match data r with Some rows => map NewsItem rows | None => [] end.

(** [(a, b) => new Date(b.created_at).getTime() - new Date(a.created_at).getTime()] *)
Definition by_date (a b : FeedItem) : Z := item_created_at b - item_created_at a.

(** [posts.some(existingItem => existingItem.id === newItem.id)] *)
Definition held (posts : list FeedItem) (newItem : FeedItem) : bool :=
  existsb (fun existingItem => String.eqb (item_id existingItem) (item_id newItem)) posts.

Definition allContent (postsResponse : Response (list Post.t))
    (newsResponse : Response (list News.t)) : list FeedItem :=
  Js.sort by_date (post_rows postsResponse ++ news_rows newsResponse).

Definition uniqueContent (posts : list FeedItem) (all : list FeedItem) : list FeedItem :=
  filter (fun newItem => negb (held posts newItem)) all.

(** [fetchMorePosts], as the callback created by the render whose state
    was [c]; the [useCallback] dependencies are all four cells. *)
Definition fetchMorePosts_from (c : State) (be : Backend) : M State unit :=
  if loading c || negb (hasMore c) then ret tt
  else
    setLoading true ;;
    try_finally
      (try_catch
         (r <- await_all
                 (Select "posts" (page c * POSTS_PER_PAGE) ((page c + 1) * POSTS_PER_PAGE - 1))
                 (select_posts be (page c * POSTS_PER_PAGE) ((page c + 1) * POSTS_PER_PAGE - 1))
                 (Select "news" (page c * POSTS_PER_PAGE) ((page c + 1) * POSTS_PER_PAGE - 1))
                 (select_news be (page c * POSTS_PER_PAGE) ((page c + 1) * POSTS_PER_PAGE - 1)) ;;
          let '(postsResponse, newsResponse) := r in
          throw_if_error postsResponse ;;
          throw_if_error newsResponse ;;
          let unique := uniqueContent (posts c) (allContent postsResponse newsResponse) in
          setPosts (fun prev => prev ++ unique) ;;
          setHasMore (Z.of_nat (length unique) =? POSTS_PER_PAGE) ;;
          setPage (fun prev => prev + 1))
         (fun error => emit (ConsoleError "Error fetching content:" error)))
      (setLoading false).

(** A call of [fetchMorePosts] made once the component has rendered the
    state [s]. *)
Definition fetchMorePosts (be : Backend) : M State unit :=
  fun s => fetchMorePosts_from s be s.

(** The argument of [addPost]; [totalOdds] may be missing at run time. *)
Record NewPost : Type := {
  text : string;
  image : option string;
  totalOdds : option string;
  confidence : Z
}.

Definition post_row (newPost : NewPost) (odds : Js.number) (user : User) : PostRow :=
  {| row_content := text newPost;
     row_image_url := image newPost;
     row_odds := odds;
     row_confidence := confidence newPost;
     row_user_id := user_id user;
     row_likes := 0;
     row_comments := 0;
     row_shares := 0 |}.

Definition oddsString (newPost : NewPost) : string :=
  Js.replace (Js.or_else (totalOdds newPost) "0") "," ".".

Definition addPost (be : Backend) (newPost : NewPost) : M State unit :=
  try_catch
    (user <- await GetUser (auth_getUser be) ;;
     match user with
     | None => throw (Error "User not authenticated")
     | Some user =>
         let odds := Js.parseFloat (oddsString newPost) in
         if Js.isNaN odds then throw (Error "Invalid odds value")
         else
           r <- await (InsertPost (post_row newPost odds user))
                      (insert_post be (post_row newPost odds user)) ;;
           throw_if_error r ;;
           match data r with
           | Some d => setPosts (fun prev => Prediction d :: prev)
           | None => ret tt
           end
     end)
    (fun error => emit (ConsoleError "Error adding post:" error) ;; throw error).

(** The argument of [addNews]. *)
Record NewNews : Type := {
  title : string;
  source : string;
  content : string;
  news_image : option string
}.

Definition news_row (newNews : NewNews) (user : User) : NewsRow :=
  {| nrow_title := title newNews;
     nrow_source := match source newNews with
                    | EmptyString => None
                    | s => Some s
                    end;
     nrow_content := content newNews;
     nrow_image_url := news_image newNews;
     nrow_user_id := user_id user;
     nrow_likes := 0;
     nrow_comments := 0;
     nrow_shares := 0 |}.

Definition addNews (be : Backend) (newNews : NewNews) : M State unit :=
  try_catch
    (user <- await GetUser (auth_getUser be) ;;
     match user with
     | None => throw (Error "User not authenticated")
     | Some user =>
         r <- await (InsertNews (news_row newNews user))
                    (insert_news be (news_row newNews user)) ;;
         throw_if_error r ;;
         match data r with
         | Some d => setPosts (fun prev => NewsItem d :: prev)
         | None => ret tt
         end
     end)
    (fun error => emit (ConsoleError "Error adding news:" error) ;; throw error).

End PostContext.

(** ** The like toggle of the feed item view: [src/components/Post.tsx] *)

Module PostView.

(** [PostProps.post], the shape shared by predictions and news. *)
Record PostProps : Type := {
  id : string;
  title : option string;
  source : option string;
  content : string;
  image_url : option string;
  odds : option Js.number;
  confidence : option Z;
  created_at : Z;
  likes : Z;
  comments : Z;
  shares : Z;
  user : Profile;
  isLiked : option bool
}.

(** [{ ...prev, likes: n, isLiked: b }] *)
Definition with_like (prev : PostProps) (n : Z) (b : bool) : PostProps :=
  {| id := id prev; title := title prev; source := source prev;
     content := content prev; image_url := image_url prev;
     odds := odds prev; confidence := confidence prev;
     created_at := created_at prev;
     likes := n; comments := comments prev; shares := shares prev;
     user := user prev; isLiked := Some b |}.

Definition setLocalPost (f : PostProps -> PostProps) : M PostProps unit := update f.

(** [post.title ? 'news_likes' : 'post_likes'] *)
Definition table (post : PostProps) : string :=
  if Js.truthy (title post) then "news_likes" else "post_likes".

(** [post.title ? 'news_id' : 'post_id'] *)
Definition idField (post : PostProps) : string :=
  if Js.truthy (title post) then "news_id" else "post_id".

(** [handleLike] as created by the render that saw [user] from the
    authentication context, the property [post] and the state cell
    [localPost]; the monad threads the state cell. *)
Definition handleLike_from (localPost : PostProps) (be : Backend)
    (user : option User) (post : PostProps) : M PostProps unit :=
  match user with
  | None => ret tt
  | Some user =>
      try_catch
        (let table := table post in
         let idField := idField post in
         if Js.truthy_flag (isLiked localPost) then
           await (DeleteLike table idField (id localPost) (user_id user))
                 (delete_like be table idField (id localPost) (user_id user)) ;;
           setLocalPost (fun prev => with_like prev (likes prev - 1) false)
         else
           await (InsertLike table idField (id localPost) (user_id user))
                 (insert_like be table idField (id localPost) (user_id user)) ;;
           setLocalPost (fun prev => with_like prev (likes prev + 1) true))
        (fun error => emit (ConsoleError "Error toggling like:" error))
  end.

(** An activation of the like control once the component has rendered
    the state cell it is applied to. *)
Definition handleLike (be : Backend) (user : option User) (post : PostProps)
    : M PostProps unit :=
  fun localPost => handleLike_from localPost be user post localPost.

End PostView.

(** ** Vocabulary of the statements *)

(** Newest first. *)
Definition newest_first (a b : FeedItem) : Prop :=
  item_created_at b <= item_created_at a.

(** A request fails when its promise rejects or its response carries an
    error. *)
Definition fails {D} (p : settled (Response D)) : bool :=
  match p with
  | Rejected _ => true
  | Fulfilled r => match error r with Some _ => true | None => false end
  end.

(** A request settles by resolving, with or without an error in the
    response. *)
Definition resolves {A} (p : settled A) : bool :=
  match p with Fulfilled _ => true | Rejected _ => false end.

(** No two items of the list have the same identifier. *)
Definition distinct_ids (l : list FeedItem) : Prop := NoDup (map item_id l).

(** The range of rows requested for the page of the captured state. *)
Definition range_from (s : PostContext.State) : Z :=
  PostContext.page s * PostContext.POSTS_PER_PAGE.
Definition range_to (s : PostContext.State) : Z :=
  (PostContext.page s + 1) * PostContext.POSTS_PER_PAGE - 1.

(** Every page the backend can return, both queries taken together, has
    pairwise distinct identifiers. *)
Definition distinct_pages (be : Backend) : Prop :=
  forall from to rp rn,
    select_posts be from to = Fulfilled rp ->
    select_news be from to = Fulfilled rn ->
    distinct_ids (PostContext.post_rows rp ++ PostContext.news_rows rn).

(** A sequence of calls of [fetchMorePosts], each made after the previous
    one has completed and the component has rendered again; the backend may
    differ from call to call. *)
Fixpoint fetch_sequence (calls : list Backend) (s : PostContext.State) : PostContext.State :=
  match calls with
  | [] => s
  | be :: rest => fetch_sequence rest (state_of (PostContext.fetchMorePosts be s))
  end.

(** ** Concrete backends *)

Module Examples.

Definition author : Profile := {| username := "ana"; avatar_url := "ana.png" |}.

Definition actor : User := {| user_id := "u1" |}.

Definition prediction (id : string) (t : Z) : Post.t :=
  {| Post.id := id; Post.content := "home win"; Post.image_url := None;
     Post.odds := Js.Finite 2; Post.confidence := 60; Post.created_at := t;
     Post.likes := 0; Post.comments := 0; Post.shares := 0; Post.user := author |}.

Definition article (id : string) (t : Z) : News.t :=
  {| News.id := id; News.title := "transfer"; News.source := None;
     News.content := "signed"; News.image_url := None; News.created_at := t;
     News.likes := 0; News.comments := 0; News.shares := 0; News.user := author |}.

Definition ok {D} (d : D) : Response D := {| data := Some d; error := None |}.

Definition refused {D} : Response D :=
  {| data := None; error := Some {| message := "permission denied" |} |}.

(** [range(from, to)] over a table listed newest first. *)
Definition range {A} (rows : list A) (from to : Z) : list A :=
  firstn (Z.to_nat (to - from + 1)) (skipn (Z.to_nat from) rows).

Definition stored_post (row : PostRow) : Post.t :=
  {| Post.id := "fresh"; Post.content := row_content row;
     Post.image_url := row_image_url row; Post.odds := row_odds row;
     Post.confidence := row_confidence row; Post.created_at := 1000;
     Post.likes := row_likes row; Post.comments := row_comments row;
     Post.shares := row_shares row; Post.user := author |}.

Definition stored_news (row : NewsRow) : News.t :=
  {| News.id := "fresh"; News.title := nrow_title row; News.source := nrow_source row;
     News.content := nrow_content row; News.image_url := nrow_image_url row;
     News.created_at := 1000; News.likes := nrow_likes row;
     News.comments := nrow_comments row; News.shares := nrow_shares row;
     News.user := author |}.

(** A backend holding the two tables, on which every request succeeds. *)
Definition backend (who : option User) (predictions : list Post.t)
    (news : list News.t) : Backend :=
  {| auth_getUser := Fulfilled who;
     select_posts := fun from to => Fulfilled (ok (range predictions from to));
     select_news := fun from to => Fulfilled (ok (range news from to));
     insert_post := fun row => Fulfilled (ok (stored_post row));
     insert_news := fun row => Fulfilled (ok (stored_news row));
     insert_like := fun _ _ _ _ => Fulfilled (ok tt);
     delete_like := fun _ _ _ _ => Fulfilled (ok tt) |}.

(** The same, except that the query on the news table is refused. *)
Definition backend_news_refused (predictions : list Post.t) : Backend :=
  {| auth_getUser := Fulfilled (Some actor);
     select_posts := fun from to => Fulfilled (ok (range predictions from to));
     select_news := fun _ _ => Fulfilled refused;
     insert_post := fun row => Fulfilled (ok (stored_post row));
     insert_news := fun row => Fulfilled (ok (stored_news row));
     insert_like := fun _ _ _ _ => Fulfilled (ok tt);
     delete_like := fun _ _ _ _ => Fulfilled (ok tt) |}.

(** One prediction and one news item that carry the same identifier. *)
Definition colliding : Backend :=
  backend (Some actor) [prediction "a" 2] [article "a" 1].

(** Fifteen predictions and ten news items, all identifiers distinct. *)
Definition fifteen_predictions : list Post.t :=
  map (fun it => prediction (fst it) (snd it))
    [("p15", 150); ("p14", 140); ("p13", 130); ("p12", 120); ("p11", 110);
     ("p10", 100); ("p09", 90); ("p08", 80); ("p07", 70); ("p06", 60);
     ("p05", 50); ("p04", 40); ("p03", 30); ("p02", 20); ("p01", 10)].

Definition ten_news : list News.t :=
  map (fun it => article (fst it) (snd it))
    [("n10", 105); ("n09", 95); ("n08", 85); ("n07", 75); ("n06", 65);
     ("n05", 55); ("n04", 45); ("n03", 35); ("n02", 25); ("n01", 15)].

Definition twenty_five : Backend :=
  backend (Some actor) fifteen_predictions ten_news.

Definition card (liked : option bool) (n : Z) : PostView.PostProps :=
  {| PostView.id := "p01"; PostView.title := None; PostView.source := None;
     PostView.content := "home win"; PostView.image_url := None;
     PostView.odds := Some (Js.Finite 2); PostView.confidence := Some 60;
     PostView.created_at := 10; PostView.likes := n; PostView.comments := 0;
     PostView.shares := 0; PostView.user := author; PostView.isLiked := liked |}.

Definition draft (odds : option string) : PostContext.NewPost :=
  {| PostContext.text := "home win"; PostContext.image := None;
     PostContext.totalOdds := odds; PostContext.confidence := 60 |}.

Definition bulletin : PostContext.NewNews :=
  {| PostContext.title := "transfer"; PostContext.source := "";
     PostContext.content := "signed"; PostContext.news_image := None |}.

End Examples.

(** ** The text of a feed item: [src/components/Post.tsx]

    Strings are sequences of code units, so that [String.length] is the
    [length] property of JavaScript. *)

Module PostBody.

Definition MAX_CHARS : nat := 200.

(** [s.slice(0, n)] for a non-negative [n]. *)
Fixpoint slice (s : string) (n : nat) : string :=
  match n, s with
  | O, _ => EmptyString
  | S _, EmptyString => EmptyString
  | S n', String c r => String c (slice r n')
  end.

(** [post.content.length > MAX_CHARS] *)
Definition shouldTruncate (post : PostView.PostProps) : bool :=
  (MAX_CHARS <? String.length (PostView.content post))%nat.

(** The text of the paragraph:
    [expanded ? localPost.content
              : `${localPost.content.slice(0, MAX_CHARS)}${shouldTruncate ? '...' : ''}`] *)
Definition text (expanded : bool) (post localPost : PostView.PostProps) : string :=
  if expanded then PostView.content localPost
  else (slice (PostView.content localPost) MAX_CHARS
        ++ (if shouldTruncate post then "..." else ""))%string.

(** The label of the button under the paragraph, when it is rendered:
    [shouldTruncate && <button>{expanded ? 'Voir moins' : 'Lire la suite'}</button>] *)
Definition toggle (expanded : bool) (post : PostView.PostProps) : option string :=
  if shouldTruncate post
  then Some (if expanded then "Voir moins" else "Lire la suite")
  else None.

End PostBody.

(** ** Sequences of operations *)

(** What a component can ask of the feed store. *)
Inductive action : Type :=
| FetchMore (be : Backend)
| AddPost (be : Backend) (newPost : PostContext.NewPost)
| AddNews (be : Backend) (newNews : PostContext.NewNews).

(** The state once the operation has completed. *)
Definition perform (a : action) (s : PostContext.State) : PostContext.State :=
  match a with
  | FetchMore be => state_of (PostContext.fetchMorePosts be s)
  | AddPost be newPost => state_of (PostContext.addPost be newPost s)
  | AddNews be newNews => state_of (PostContext.addNews be newNews s)
  end.

Fixpoint perform_all (l : list action) (s : PostContext.State) : PostContext.State :=
  match l with
  | [] => s
  | a :: rest => perform_all rest (perform a s)
  end.

(** The backend answers the operation, made in state [s], with identifiers
    that do not clash: the page requested has no identifier twice, and a
    row returned by an insert carries an identifier that is not held. *)
Definition answers_distinctly (a : action) (s : PostContext.State) : Prop :=
  match a with
  | FetchMore be =>
      forall rp rn,
        select_posts be (range_from s) (range_to s) = Fulfilled rp ->
        select_news be (range_from s) (range_to s) = Fulfilled rn ->
        distinct_ids (PostContext.post_rows rp ++ PostContext.news_rows rn)
  | AddPost be _ =>
      forall row r d,
        insert_post be row = Fulfilled r -> data r = Some d ->
        ~ In (Post.id d) (map item_id (PostContext.posts s))
  | AddNews be _ =>
      forall row r d,
        insert_news be row = Fulfilled r -> data r = Some d ->
        ~ In (News.id d) (map item_id (PostContext.posts s))
  end.

Fixpoint all_answer_distinctly (l : list action) (s : PostContext.State) : Prop :=
  match l with
  | [] => True
  | a :: rest => answers_distinctly a s /\ all_answer_distinctly rest (perform a s)
  end.

(** [n] activations of the like control in a row, each made after the
    previous one has completed and the component has rendered again. *)
Fixpoint activations (n : nat) (be : Backend) (user : option User)
    (post localPost : PostView.PostProps) : PostView.PostProps :=
  match n with
  | O => localPost
  | S n' => activations n' be user post (state_of (PostView.handleLike be user post localPost))
  end.

(** Two calls of the [fetchMorePosts] callback of one render, the second
    made before the component has rendered again: both read the cells as
    captured in [c], and their updaters are applied in turn. *)
Definition fetchMorePosts_twice_from (c : PostContext.State) (be : Backend)
    : M PostContext.State unit :=
  PostContext.fetchMorePosts_from c be ;; PostContext.fetchMorePosts_from c be.

(** Two activations of the [handleLike] callback of one render. *)
Definition handleLike_twice_from (localPost : PostView.PostProps) (be : Backend)
    (user : option User) (post : PostView.PostProps) : M PostView.PostProps unit :=
  PostView.handleLike_from localPost be user post ;;
  PostView.handleLike_from localPost be user post.

(** ** Further concrete backends *)

Module Scenarios.

(** A response that carries an error and no row. *)
Definition denied {D} : Response D :=
  {| data := None; error := Some {| message := "row-level security" |} |}.

(** Every request on the like tables resolves, with an error. *)
Definition likes_denied : Backend :=
  {| auth_getUser := Fulfilled (Some Examples.actor);
     select_posts := fun _ _ => Fulfilled (Examples.ok []);
     select_news := fun _ _ => Fulfilled (Examples.ok []);
     insert_post := fun _ => Fulfilled denied;
     insert_news := fun _ => Fulfilled denied;
     insert_like := fun _ _ _ _ => Fulfilled denied;
     delete_like := fun _ _ _ _ => Fulfilled denied |}.

(** Every request rejects. *)
Definition offline : Backend :=
  {| auth_getUser := Rejected {| message := "Failed to fetch" |};
     select_posts := fun _ _ => Rejected {| message := "Failed to fetch" |};
     select_news := fun _ _ => Rejected {| message := "Failed to fetch" |};
     insert_post := fun _ => Rejected {| message := "Failed to fetch" |};
     insert_news := fun _ => Rejected {| message := "Failed to fetch" |};
     insert_like := fun _ _ _ _ => Rejected {| message := "Failed to fetch" |};
     delete_like := fun _ _ _ _ => Rejected {| message := "Failed to fetch" |} |}.

(** A user is signed in, and the like requests reject. *)
Definition likes_offline : Backend :=
  {| auth_getUser := Fulfilled (Some Examples.actor);
     select_posts := fun _ _ => Fulfilled (Examples.ok []);
     select_news := fun _ _ => Fulfilled (Examples.ok []);
     insert_post := fun _ => Fulfilled denied;
     insert_news := fun _ => Fulfilled denied;
     insert_like := fun _ _ _ _ => Rejected {| message := "Failed to fetch" |};
     delete_like := fun _ _ _ _ => Rejected {| message := "Failed to fetch" |} |}.

(** A user is signed in; a like can be recorded but its removal rejects. *)
Definition unlike_offline : Backend :=
  {| auth_getUser := Fulfilled (Some Examples.actor);
     select_posts := fun _ _ => Fulfilled (Examples.ok []);
     select_news := fun _ _ => Fulfilled (Examples.ok []);
     insert_post := fun _ => Fulfilled denied;
     insert_news := fun _ => Fulfilled denied;
     insert_like := fun _ _ _ _ => Fulfilled (Examples.ok tt);
     delete_like := fun _ _ _ _ => Rejected {| message := "Failed to fetch" |} |}.

(** Twenty predictions and twenty news items, forty identifiers. *)
Definition twenty_predictions : list Post.t :=
  map (fun it => Examples.prediction (fst it) (snd it))
    [("p20", 200); ("p19", 190); ("p18", 180); ("p17", 170); ("p16", 160);
     ("p15", 150); ("p14", 140); ("p13", 130); ("p12", 120); ("p11", 110);
     ("p10", 100); ("p09", 90); ("p08", 80); ("p07", 70); ("p06", 60);
     ("p05", 50); ("p04", 40); ("p03", 30); ("p02", 20); ("p01", 10)].

Definition twenty_news : list News.t :=
  map (fun it => Examples.article (fst it) (snd it))
    [("n20", 205); ("n19", 195); ("n18", 185); ("n17", 175); ("n16", 165);
     ("n15", 155); ("n14", 145); ("n13", 135); ("n12", 125); ("n11", 115);
     ("n10", 105); ("n09", 95); ("n08", 85); ("n07", 75); ("n06", 65);
     ("n05", 55); ("n04", 45); ("n03", 35); ("n02", 25); ("n01", 15)].

Definition forty : Backend :=
  Examples.backend (Some Examples.actor) twenty_predictions twenty_news.

(** Two predictions and a news item published at the same instant. *)
Definition simultaneous : Backend :=
  Examples.backend (Some Examples.actor)
    [Examples.prediction "p2" 5; Examples.prediction "p1" 5]
    [Examples.article "n1" 5].

(** An item whose text has 250 characters. *)
Definition long_card : PostView.PostProps :=
  {| PostView.id := "p01"; PostView.title := None; PostView.source := None;
     PostView.content :=
       string_of_list_ascii (repeat "x"%char 250);
     PostView.image_url := None;
     PostView.odds := Some (Js.Finite 2); PostView.confidence := Some 60;
     PostView.created_at := 10; PostView.likes := 3; PostView.comments := 0;
     PostView.shares := 0; PostView.user := Examples.author;
     PostView.isLiked := None |}.

Definition headline : PostContext.NewNews :=
  {| PostContext.title := "transfer"; PostContext.source := "L'Equipe";
     PostContext.content := "signed"; PostContext.news_image := None |}.

End Scenarios.

(** * Properties *)

(** ** The built-ins *)

(** [parseFloat] on a few inputs, as an engine evaluates it. *)
Example parseFloat_samples :
  Js.parseFloat "2.50" = Js.Finite (5 # 2) /\
  Js.parseFloat "abc" = Js.NaN /\
  Js.parseFloat "0" = Js.Finite 0 /\
  Js.parseFloat "  -1.5e2xyz" = Js.Finite (-150 # 1) /\
  Js.parseFloat "." = Js.NaN /\
  Js.parseFloat ".5" = Js.Finite (1 # 2) /\
  Js.parseFloat "1e" = Js.Finite 1 /\
  Js.parseFloat "-Infinityx" = Js.Infinity true /\
  Js.parseFloat "" = Js.NaN.
Proof. repeat split. Qed.

(** The value read is rounded to a binary64, overflows to an infinity,
    and leading no-break spaces are skipped like other white space. *)
Example parseFloat_gives_binary64 :
  Js.parseFloat "1e400" = Js.Infinity false /\
  Js.parseFloat "9007199254740993" = Js.Finite (9007199254740992 # 1) /\
  Js.parseFloat "0.1" = Js.Finite (3602879701896397 # 36028797018963968) /\
  Js.parseFloat "5e-325" = Js.Finite 0 /\
  Js.parseFloat (String (ascii_of_nat 160) "2.5") = Js.Finite (5 # 2).
Proof. repeat split; vm_compute; reflexivity. Qed.

(** Only the first comma is replaced, and [parseFloat] stops at the
    second. *)
Example replace_first_comma_only :
  Js.replace "1,25,5" "," "." = "1.25,5" /\
  Js.parseFloat (Js.replace "1,25,5" "," ".") = Js.Finite (5 # 4).
Proof. split; reflexivity. Qed.

Section SortFacts.
Variable A : Type.
Variable compareFn : A -> A -> Z.

Let before := Js.before compareFn.

Hypothesis before_total : forall a b, before a b \/ before b a.
Hypothesis before_trans : forall a b c, before a b -> before b c -> before a c.

Lemma insert_perm (x : A) (l : list A) :
  Permutation (Js.insert compareFn x l) (x :: l).
Proof.
  induction l as [|y l IH]; simpl.
  - apply Permutation_refl.
  - destruct (compareFn x y <=? 0).
    + apply Permutation_refl.
    + apply perm_trans with (y :: x :: l).
      * apply perm_skip, IH.
      * apply perm_swap.
Qed.

Lemma sort_perm (l : list A) : Permutation (Js.sort compareFn l) l.
Proof.
  induction l as [|x l IH]; simpl.
  - apply perm_nil.
  - apply perm_trans with (x :: Js.sort compareFn l).
    + apply insert_perm.
    + apply perm_skip, IH.
Qed.

Lemma insert_sorted (x : A) (l : list A) :
  StronglySorted before l -> StronglySorted before (Js.insert compareFn x l).
Proof.
  induction 1 as [|y l Hl IH Hy]; simpl.
  - repeat constructor.
  - destruct (compareFn x y <=? 0) eqn:E.
    + apply Z.leb_le in E.
      constructor; [constructor; assumption|].
      constructor; [exact E|].
      rewrite Forall_forall in *. intros z Hz.
      apply before_trans with y; [exact E | apply Hy, Hz].
    + apply Z.leb_gt in E.
      constructor; [exact IH|].
      assert (Hyx : before y x).
      { destruct (before_total x y) as [H|H]; [unfold before, Js.before in H; lia | exact H]. }
      rewrite Forall_forall in *. intros z Hz.
      apply (Permutation_in _ (insert_perm x l)) in Hz.
      destruct Hz as [<-|Hz]; [exact Hyx | apply Hy, Hz].
Qed.

Lemma sort_sorted (l : list A) : StronglySorted before (Js.sort compareFn l).
Proof.
  induction l as [|x l IH]; simpl.
  - constructor.
  - apply insert_sorted, IH.
Qed.
End SortFacts.

Lemma sort_by_date_perm (l : list FeedItem) :
  Permutation (Js.sort PostContext.by_date l) l.
Proof. apply sort_perm. Qed.

Lemma sort_by_date_sorted (l : list FeedItem) :
  StronglySorted newest_first (Js.sort PostContext.by_date l).
Proof.
  assert (H : StronglySorted (Js.before PostContext.by_date) (Js.sort PostContext.by_date l)).
  { apply sort_sorted; unfold Js.before, PostContext.by_date; intros; lia. }
  revert H. generalize (Js.sort PostContext.by_date l). intros s H.
  induction H as [|x s Hs IH Hx]; constructor; [exact IH|].
  rewrite Forall_forall in *. intros y Hy. specialize (Hx y Hy).
  unfold Js.before, PostContext.by_date in Hx. unfold newest_first. lia.
Qed.

(** The sort is stable: items with the same timestamp keep the order of
    the concatenation. *)
Lemma sort_by_date_stable (t : Z) (l : list FeedItem) :
  filter (fun x => item_created_at x =? t) (Js.sort PostContext.by_date l)
  = filter (fun x => item_created_at x =? t) l.
Proof.
  induction l as [|x l IH]; simpl; [reflexivity|].
  rewrite <- IH. generalize (Js.sort PostContext.by_date l). clear IH l.
  intros s. induction s as [|y s IH]; simpl; [reflexivity|].
  unfold PostContext.by_date at 1.
  destruct (item_created_at y - item_created_at x <=? 0) eqn:E; simpl.
  - reflexivity.
  - apply Z.leb_gt in E. rewrite IH.
    destruct (item_created_at x =? t) eqn:Ex;
      destruct (item_created_at y =? t) eqn:Ey; try reflexivity.
    apply Z.eqb_eq in Ex, Ey. lia.
Qed.

(** [held] decides whether an identifier is already in the list. *)
Lemma held_spec (l : list FeedItem) (x : FeedItem) :
  PostContext.held l x = true <-> In (item_id x) (map item_id l).
Proof.
  unfold PostContext.held. rewrite existsb_exists, in_map_iff.
  split; intros [y [H1 H2]]; exists y.
  - apply String.eqb_eq in H2. tauto.
  - split; [exact H2 | apply String.eqb_eq; exact H1].
Qed.

(** ** The feed store *)

Import PostContext.

(** What a call does when it is not skipped and both queries succeed. *)
Lemma fetchMorePosts_ok (be : Backend) (s : State)
    (rp : Response (list Post.t)) (rn : Response (list News.t)) :
  loading s = false -> hasMore s = true ->
  select_posts be (range_from s) (range_to s) = Fulfilled rp ->
  select_news be (range_from s) (range_to s) = Fulfilled rn ->
  error rp = None -> error rn = None ->
  fetchMorePosts be s =
    (Return tt,
     {| posts := posts s ++ uniqueContent (posts s) (allContent rp rn);
        loading := false;
        hasMore := Z.of_nat (length (uniqueContent (posts s) (allContent rp rn))) =? POSTS_PER_PAGE;
        page := page s + 1 |},
     [Select "posts" (range_from s) (range_to s);
      Select "news" (range_from s) (range_to s)]).
Proof.
  unfold range_from, range_to. intros Hl Hm Hp Hn Ep En.
  unfold fetchMorePosts, fetchMorePosts_from. rewrite Hl, Hm. simpl.
  unfold bind, try_finally, try_catch, await_all, setLoading, update. simpl.
  rewrite Hp, Hn. unfold throw_if_error. rewrite Ep, En. simpl.
  reflexivity.
Qed.

(** C3.  A fetch that is not skipped and whose two queries succeed appends
    to the held list the concatenation of the two result sets (the rows of
    [data], none when [data] is [null]), sorted by creation time
    descending, rows of equal time in the order of the concatenation, and
    stripped of the items whose identifier is already held; [hasMore] is
    true exactly when 20 items were appended, and the page counter grows by
    one. *)
Theorem fetchMorePosts_appends_sorted_unseen (be : Backend) (s : State)
    (rp : Response (list Post.t)) (rn : Response (list News.t)) :
  loading s = false -> hasMore s = true ->
  select_posts be (range_from s) (range_to s) = Fulfilled rp ->
  select_news be (range_from s) (range_to s) = Fulfilled rn ->
  error rp = None -> error rn = None ->
  exists sorted fresh : list FeedItem,
    Permutation sorted
      (match data rp with Some rows => map Prediction rows | None => [] end
       ++ match data rn with Some rows => map NewsItem rows | None => [] end) /\
    StronglySorted newest_first sorted /\
    (forall t,
       filter (fun x => item_created_at x =? t) sorted
       = filter (fun x => item_created_at x =? t)
           (match data rp with Some rows => map Prediction rows | None => [] end
            ++ match data rn with Some rows => map NewsItem rows | None => [] end)) /\
    fresh = filter (fun x => negb (held (posts s) x)) sorted /\
    (forall x, In x fresh <-> In x sorted /\ ~ In (item_id x) (map item_id (posts s))) /\
    result_of (fetchMorePosts be s) = Return tt /\
    posts (state_of (fetchMorePosts be s)) = posts s ++ fresh /\
    (hasMore (state_of (fetchMorePosts be s)) = true <-> length fresh = 20%nat) /\
    page (state_of (fetchMorePosts be s)) = page s + 1.
Proof.
  intros Hl Hm Hp Hn Ep En.
  rewrite (fetchMorePosts_ok be s Hl Hm Hp Hn Ep En).
  exists (allContent rp rn), (uniqueContent (posts s) (allContent rp rn)).
  unfold result_of, state_of; simpl.
  split; [apply sort_by_date_perm|].
  split; [apply sort_by_date_sorted|].
  split; [intros t; apply sort_by_date_stable|].
  split; [reflexivity|].
  split; [|split; [reflexivity|split; [reflexivity|split; [|reflexivity]]]].
  - intros x. unfold uniqueContent. rewrite filter_In, <- held_spec.
    destruct (held (posts s) x); simpl; intuition congruence.
  - rewrite Z.eqb_eq. unfold POSTS_PER_PAGE. lia.
Qed.

Lemma fetchMorePosts_appends_sorted_unseen_witness :
  let s := {| posts := [Prediction (Examples.prediction "p13" 130);
                        NewsItem (Examples.article "n02" 25)];
              loading := false; hasMore := true; page := 0 |} in
  (exists sorted fresh : list FeedItem,
     Permutation sorted
       (map Prediction Examples.fifteen_predictions ++ map NewsItem Examples.ten_news) /\
     StronglySorted newest_first sorted /\
     (forall t,
        filter (fun x => item_created_at x =? t) sorted
        = filter (fun x => item_created_at x =? t)
            (map Prediction Examples.fifteen_predictions ++ map NewsItem Examples.ten_news)) /\
     fresh = filter (fun x => negb (held (posts s) x)) sorted /\
     (forall x, In x fresh <-> In x sorted /\ ~ In (item_id x) (map item_id (posts s))) /\
     result_of (fetchMorePosts Examples.twenty_five s) = Return tt /\
     posts (state_of (fetchMorePosts Examples.twenty_five s)) = posts s ++ fresh /\
     (hasMore (state_of (fetchMorePosts Examples.twenty_five s)) = true
      <-> length fresh = 20%nat) /\
     page (state_of (fetchMorePosts Examples.twenty_five s)) = page s + 1) /\
  map item_id (posts (state_of (fetchMorePosts Examples.twenty_five s)))
  = ["p13"; "n02";
     "p15"; "p14"; "p12"; "p11"; "n10"; "p10"; "n09"; "p09"; "n08"; "p08";
     "n07"; "p07"; "n06"; "p06"; "n05"; "p05"; "n04"; "p04"; "n03"; "p03";
     "p02"; "n01"; "p01"] /\
  hasMore (state_of (fetchMorePosts Examples.twenty_five s)) = false.
Proof.
  intros s. split.
  - apply (@fetchMorePosts_appends_sorted_unseen Examples.twenty_five s
             (Examples.ok Examples.fifteen_predictions) (Examples.ok Examples.ten_news));
      reflexivity.
  - split; reflexivity.
Defined.

(** A skipped call. *)
Lemma fetchMorePosts_skipped (be : Backend) (s : State) :
  loading s = true \/ hasMore s = false ->
  fetchMorePosts be s = (Return tt, s, []).
Proof.
  intros H. unfold fetchMorePosts, fetchMorePosts_from.
  destruct H as [H|H]; rewrite H; simpl;
    [reflexivity | rewrite orb_true_r; reflexivity].
Qed.

(** A call whose queries are issued and of which one fails. *)
Lemma fetchMorePosts_failed (be : Backend) (s : State) :
  loading s = false -> hasMore s = true ->
  fails (select_posts be (range_from s) (range_to s)) = true \/
  fails (select_news be (range_from s) (range_to s)) = true ->
  exists e,
    fetchMorePosts be s =
      (Return tt, s,
       [Select "posts" (range_from s) (range_to s);
        Select "news" (range_from s) (range_to s);
        ConsoleError "Error fetching content:" (RemoteOperationFailed e)]).
Proof.
  unfold range_from, range_to. intros Hl Hm Hf.
  unfold fetchMorePosts, fetchMorePosts_from. rewrite Hl, Hm. simpl.
  unfold bind, try_finally, try_catch, await_all, setLoading, update. simpl.
  assert (Es : {| posts := posts s; loading := false; hasMore := hasMore s; page := page s |} = s).
  { destruct s; simpl in *; subst; reflexivity. }
  destruct (select_posts be _ _) as [rp|ep]; destruct (select_news be _ _) as [rn|en];
    simpl in *.
  - unfold throw_if_error.
    destruct (error rp) as [e1|]; simpl.
    + exists e1. rewrite Es. reflexivity.
    + destruct (error rn) as [e2|]; simpl.
      * exists e2. rewrite Es. reflexivity.
      * destruct Hf; discriminate.
  - exists en. rewrite Es. reflexivity.
  - exists ep. rewrite Es. reflexivity.
  - exists ep. rewrite Es. reflexivity.
Qed.

(** The three ways a call can go, as far as the held list is concerned. *)
Lemma fetchMorePosts_posts (be : Backend) (s : State) :
  posts (state_of (fetchMorePosts be s)) = posts s \/
  exists rp rn,
    select_posts be (range_from s) (range_to s) = Fulfilled rp /\
    select_news be (range_from s) (range_to s) = Fulfilled rn /\
    posts (state_of (fetchMorePosts be s))
    = posts s ++ uniqueContent (posts s) (allContent rp rn).
Proof.
  destruct (loading s) eqn:Hl.
  { left. rewrite fetchMorePosts_skipped; auto. }
  destruct (hasMore s) eqn:Hm.
  2:{ left. rewrite fetchMorePosts_skipped; auto. }
  destruct (fails (select_posts be (range_from s) (range_to s))) eqn:Fp.
  { left. destruct (fetchMorePosts_failed be s Hl Hm) as [e He]; auto.
    rewrite He. reflexivity. }
  destruct (fails (select_news be (range_from s) (range_to s))) eqn:Fn.
  { left. destruct (fetchMorePosts_failed be s Hl Hm) as [e He]; auto.
    rewrite He. reflexivity. }
  right.
  destruct (select_posts be (range_from s) (range_to s)) as [rp|] eqn:Hp; [|discriminate].
  destruct (select_news be (range_from s) (range_to s)) as [rn|] eqn:Hn; [|discriminate].
  exists rp, rn. repeat split.
  simpl in Fp, Fn.
  rewrite (@fetchMorePosts_ok be s rp rn Hl Hm Hp Hn).
  - reflexivity.
  - destruct (error rp); [discriminate | reflexivity].
  - destruct (error rn); [discriminate | reflexivity].
Qed.

Lemma NoDup_map_filter {A B} (g : A -> B) (f : A -> bool) (l : list A) :
  NoDup (map g l) -> NoDup (map g (filter f l)).
Proof.
  induction l as [|x l IH]; simpl; intros H; [constructor|].
  inversion H as [|? ? Hx Hl]; subst.
  destruct (f x); simpl; [|auto].
  constructor; [|auto].
  intros Hin. apply Hx. rewrite in_map_iff in *.
  destruct Hin as [y [Hy Hin]]. exists y. split; [exact Hy|].
  apply filter_In in Hin. tauto.
Qed.

(** Appending the unseen part of a page keeps identifiers distinct, as long
    as the page itself has no two items with the same identifier. *)
Lemma append_unique_distinct (old page : list FeedItem) :
  distinct_ids old -> distinct_ids page ->
  distinct_ids (old ++ uniqueContent old (Js.sort by_date page)).
Proof.
  unfold distinct_ids. intros Ho Hp. rewrite map_app.
  apply NoDup_app; [exact Ho | |].
  - unfold uniqueContent. apply NoDup_map_filter.
    apply Permutation_NoDup with (map item_id page); [|exact Hp].
    apply Permutation_map, Permutation_sym, sort_by_date_perm.
  - intros i Hi Hu. rewrite in_map_iff in Hu. destruct Hu as [x [<- Hx]].
    unfold uniqueContent in Hx. apply filter_In in Hx. destruct Hx as [_ Hx].
    apply held_spec in Hi. rewrite Hi in Hx. discriminate.
Qed.

Lemma fetchMorePosts_distinct_ids (be : Backend) (s : State) :
  distinct_pages be -> distinct_ids (posts s) ->
  distinct_ids (posts (state_of (fetchMorePosts be s))).
Proof.
  intros Hbe Hs.
  destruct (fetchMorePosts_posts be s) as [E | (rp & rn & Hp & Hn & E)]; rewrite E.
  - exact Hs.
  - apply append_unique_distinct; [exact Hs | exact (Hbe _ _ _ _ Hp Hn)].
Qed.

(** Over any sequence of calls the held list keeps distinct identifiers,
    provided no page holds the same identifier twice. *)
Lemma fetch_sequence_distinct_ids (calls : list Backend) (s : State) :
  Forall distinct_pages calls -> distinct_ids (posts s) ->
  distinct_ids (posts (fetch_sequence calls s)).
Proof.
  intros Hc. revert s. induction Hc as [|be rest Hbe _ IH]; intros s Hs; simpl.
  - exact Hs.
  - apply IH, fetchMorePosts_distinct_ids; assumption.
Qed.

(** C1.  The held list can come to contain two items with the same
    identifier: when a prediction and a news item of one fetched page carry
    the same identifier, the filter compares them with the items held before
    the call only, and both are appended. *)
Theorem fetchMorePosts_keeps_collision_within_page :
  posts (state_of (fetchMorePosts Examples.colliding initial))
  = [Prediction (Examples.prediction "a" 2); NewsItem (Examples.article "a" 1)] /\
  map item_id (posts (state_of (fetchMorePosts Examples.colliding initial))) = ["a"; "a"] /\
  distinct_ids (posts initial) /\
  ~ distinct_ids (posts (fetch_sequence [Examples.colliding] initial)).
Proof.
  repeat split.
  - constructor.
  - intros H. vm_compute in H. inversion H as [|? ? Hin _]; subst.
    apply Hin. left. reflexivity.
Qed.




(** C4.  When the queries of a fetch are issued and either of them fails,
    by rejecting or by answering with an error, the call still returns
    normally: the error is logged and swallowed, and the held list,
    [hasMore], the page counter are as before and [loading] is false. *)
Theorem fetchMorePosts_failure_swallowed (be : Backend) (s : State) :
  loading s = false -> hasMore s = true ->
  fails (select_posts be (range_from s) (range_to s)) = true \/
  fails (select_news be (range_from s) (range_to s)) = true ->
  result_of (fetchMorePosts be s) = Return tt /\
  posts (state_of (fetchMorePosts be s)) = posts s /\
  hasMore (state_of (fetchMorePosts be s)) = hasMore s /\
  page (state_of (fetchMorePosts be s)) = page s /\
  loading (state_of (fetchMorePosts be s)) = false /\
  exists e,
    trace_of (fetchMorePosts be s) =
      [Select "posts" (range_from s) (range_to s);
       Select "news" (range_from s) (range_to s);
       ConsoleError "Error fetching content:" (RemoteOperationFailed e)].
Proof.
  intros Hl Hm Hf.
  destruct (fetchMorePosts_failed be s Hl Hm Hf) as [e He].
  rewrite He. unfold result_of, state_of, trace_of; simpl.
  repeat split; try assumption. exists e. reflexivity.
Qed.

Lemma fetchMorePosts_failure_swallowed_witness :
  result_of (fetchMorePosts (Examples.backend_news_refused Examples.fifteen_predictions) initial)
  = Return tt /\
  state_of (fetchMorePosts (Examples.backend_news_refused Examples.fifteen_predictions) initial)
  = initial.
Proof.
  destruct (@fetchMorePosts_failure_swallowed
              (Examples.backend_news_refused Examples.fifteen_predictions) initial
              eq_refl eq_refl (or_intror eq_refl))
    as (Hr & Hp & Hh & Hg & Hl & _).
  split; [exact Hr|].
  destruct (state_of _) as [p l h g]; simpl in *. subst. reflexivity.
Defined.

(** C5.  While [loading] is true or [hasMore] is false a call does
    nothing: no request is issued and no part of the state changes. *)
Theorem fetchMorePosts_noop_when_loading_or_exhausted (be : Backend) (s : State) :
  loading s = true \/ hasMore s = false ->
  result_of (fetchMorePosts be s) = Return tt /\
  state_of (fetchMorePosts be s) = s /\
  trace_of (fetchMorePosts be s) = [].
Proof.
  intros H. rewrite (fetchMorePosts_skipped be s H). repeat split.
Qed.

Lemma fetchMorePosts_noop_when_loading_or_exhausted_witness :
  let s := {| posts := [Prediction (Examples.prediction "p01" 10)];
              loading := true; hasMore := true; page := 1 |} in
  result_of (fetchMorePosts Examples.twenty_five s) = Return tt /\
  state_of (fetchMorePosts Examples.twenty_five s) = s /\
  trace_of (fetchMorePosts Examples.twenty_five s) = [].
Proof.
  intros s. apply (@fetchMorePosts_noop_when_loading_or_exhausted Examples.twenty_five s).
  left. reflexivity.
Defined.

(** ** Creating predictions and news *)

Lemma addPost_unauthenticated (be : Backend) (p : NewPost) (s : State) :
  auth_getUser be = Fulfilled None ->
  addPost be p s =
    (Throw AuthenticationRequired, s,
     [GetUser; ConsoleError "Error adding post:" AuthenticationRequired]).
Proof.
  intros H. unfold addPost, try_catch, bind, await. rewrite H. reflexivity.
Qed.

Lemma addNews_unauthenticated (be : Backend) (n : NewNews) (s : State) :
  auth_getUser be = Fulfilled None ->
  addNews be n s =
    (Throw AuthenticationRequired, s,
     [GetUser; ConsoleError "Error adding news:" AuthenticationRequired]).
Proof.
  intros H. unfold addNews, try_catch, bind, await. rewrite H. reflexivity.
Qed.

Lemma addPost_invalid_odds (be : Backend) (u : User) (p : NewPost) (s : State) :
  auth_getUser be = Fulfilled (Some u) ->
  Js.isNaN (Js.parseFloat (oddsString p)) = true ->
  addPost be p s =
    (Throw InvalidInput, s, [GetUser; ConsoleError "Error adding post:" InvalidInput]).
Proof.
  intros H Hn. unfold addPost, try_catch, bind, await. rewrite H. simpl.
  rewrite Hn. reflexivity.
Qed.

(** With a user and parsable odds the insert is issued; what follows
    depends on how it settles. *)
Lemma addPost_inserts (be : Backend) (u : User) (p : NewPost) (s : State) :
  auth_getUser be = Fulfilled (Some u) ->
  Js.isNaN (Js.parseFloat (oddsString p)) = false ->
  let row := post_row p (Js.parseFloat (oddsString p)) u in
  addPost be p s =
    match insert_post be row with
    | Rejected e =>
        (Throw (RemoteOperationFailed e), s,
         [GetUser; InsertPost row; ConsoleError "Error adding post:" (RemoteOperationFailed e)])
    | Fulfilled r =>
        match error r, data r with
        | Some e, _ =>
            (Throw (RemoteOperationFailed e), s,
             [GetUser; InsertPost row;
              ConsoleError "Error adding post:" (RemoteOperationFailed e)])
        | None, Some d =>
            (Return tt,
             {| posts := Prediction d :: posts s; loading := loading s;
                hasMore := hasMore s; page := page s |},
             [GetUser; InsertPost row])
        | None, None => (Return tt, s, [GetUser; InsertPost row])
        end
    end.
Proof.
  intros H Hn row. unfold addPost, try_catch, bind, await. rewrite H. simpl.
  rewrite Hn. fold row.
  destruct (insert_post be row) as [r|e]; simpl; [|reflexivity].
  unfold throw_if_error. destruct (error r); simpl; [reflexivity|].
  destruct (data r); reflexivity.
Qed.

Lemma addPost_inserts_trace (be : Backend) (u : User) (p : NewPost) (s : State) :
  auth_getUser be = Fulfilled (Some u) ->
  Js.isNaN (Js.parseFloat (oddsString p)) = false ->
  result_of (addPost be p s) <> Throw InvalidInput /\
  exists rest,
    trace_of (addPost be p s)
    = GetUser :: InsertPost (post_row p (Js.parseFloat (oddsString p)) u) :: rest.
Proof.
  intros H Hn. rewrite (addPost_inserts be p s H Hn).
  destruct (insert_post be _) as [r|e].
  - destruct (error r), (data r); unfold result_of, trace_of; simpl;
      (split; [discriminate | eexists; reflexivity]).
  - unfold result_of, trace_of; simpl. split; [discriminate | eexists; reflexivity].
Qed.

(** The row sent by [addPost], field by field. *)
Lemma addPost_inserts_row (be : Backend) (u : User) (p : NewPost) (s : State) :
  auth_getUser be = Fulfilled (Some u) ->
  Js.isNaN (Js.parseFloat (oddsString p)) = false ->
  exists row rest,
    trace_of (addPost be p s) = GetUser :: InsertPost row :: rest /\
    row_odds row = Js.parseFloat (oddsString p) /\
    row_content row = text p /\
    row_image_url row = image p /\
    row_confidence row = PostContext.confidence p /\
    row_user_id row = user_id u /\
    row_likes row = 0 /\ row_comments row = 0 /\ row_shares row = 0.
Proof.
  intros H Hn. destruct (addPost_inserts_trace be p s H Hn) as (_ & rest & Ht).
  exists (post_row p (Js.parseFloat (oddsString p)) u), rest.
  split; [exact Ht|]. repeat split.
Qed.

(** C6.  For an authenticated actor the odds are parsed after the comma is
    replaced by a period: ["2,50"] gives 2.5 and the insert is issued for a
    row with odds 2.5, the given text, image and confidence, the actor's
    identifier and zeroed counters; an input whose normalised form parses
    to [NaN], such as ["abc"], fails with [InvalidInput], with no insert
    issued and the state as before. *)
Theorem addPost_parses_odds (be : Backend) (u : User) (p : NewPost) (s : State) :
  auth_getUser be = Fulfilled (Some u) ->
  (totalOdds p = Some "2,50" ->
     oddsString p = "2.50" /\
     Js.parseFloat (oddsString p) = Js.Finite (5 # 2) /\
     exists row rest,
       trace_of (addPost be p s) = GetUser :: InsertPost row :: rest /\
       row_odds row = Js.Finite (5 # 2) /\
       row_content row = text p /\
       row_image_url row = image p /\
       row_confidence row = PostContext.confidence p /\
       row_user_id row = user_id u /\
       row_likes row = 0 /\ row_comments row = 0 /\ row_shares row = 0) /\
  (totalOdds p = Some "abc" -> Js.isNaN (Js.parseFloat (oddsString p)) = true) /\
  (Js.isNaN (Js.parseFloat (oddsString p)) = true ->
     result_of (addPost be p s) = Throw InvalidInput /\
     state_of (addPost be p s) = s /\
     trace_of (addPost be p s) = [GetUser; ConsoleError "Error adding post:" InvalidInput]).
Proof.
  intros H. split; [|split].
  - intros Ho.
    assert (Es : oddsString p = "2.50") by (unfold oddsString; rewrite Ho; reflexivity).
    assert (E : Js.parseFloat (oddsString p) = Js.Finite (5 # 2))
      by (rewrite Es; reflexivity).
    split; [exact Es|]. split; [exact E|].
    rewrite <- E. apply addPost_inserts_row; [exact H | rewrite E; reflexivity].
  - intros Ho. unfold oddsString. rewrite Ho. reflexivity.
  - intros Hn. rewrite (addPost_invalid_odds be p s H Hn). repeat split.
Qed.

Lemma addPost_parses_odds_witness :
  (exists row rest,
     trace_of (addPost Examples.twenty_five (Examples.draft (Some "2,50")) initial)
     = GetUser :: InsertPost row :: rest /\
     row_odds row = Js.Finite (5 # 2) /\
     row_content row = "home win" /\
     row_image_url row = None /\
     row_confidence row = 60 /\
     row_user_id row = "u1" /\
     row_likes row = 0 /\ row_comments row = 0 /\ row_shares row = 0) /\
  result_of (addPost Examples.twenty_five (Examples.draft (Some "abc")) initial)
  = Throw InvalidInput /\
  state_of (addPost Examples.twenty_five (Examples.draft (Some "abc")) initial) = initial /\
  trace_of (addPost Examples.twenty_five (Examples.draft (Some "abc")) initial)
  = [GetUser; ConsoleError "Error adding post:" InvalidInput].
Proof.
  split.
  - destruct (@addPost_parses_odds Examples.twenty_five Examples.actor
                (Examples.draft (Some "2,50")) initial eq_refl) as (H & _ & _).
    destruct (H eq_refl) as (_ & _ & Hrow). exact Hrow.
  - destruct (@addPost_parses_odds Examples.twenty_five Examples.actor
                (Examples.draft (Some "abc")) initial eq_refl) as (_ & Hnan & H).
    apply H, Hnan. reflexivity.
Defined.

(** C7.  Without an authenticated actor both [addPost] and [addNews] fail
    with [AuthenticationRequired]; no insert is issued and the held list,
    like the rest of the state, is unchanged. *)
Theorem create_requires_authentication (be : Backend) (p : NewPost) (n : NewNews) (s : State) :
  auth_getUser be = Fulfilled None ->
  addPost be p s =
    (Throw AuthenticationRequired, s,
     [GetUser; ConsoleError "Error adding post:" AuthenticationRequired]) /\
  addNews be n s =
    (Throw AuthenticationRequired, s,
     [GetUser; ConsoleError "Error adding news:" AuthenticationRequired]).
Proof.
  intros H. split.
  - apply addPost_unauthenticated, H.
  - apply addNews_unauthenticated, H.
Qed.

Lemma create_requires_authentication_witness :
  addPost (Examples.backend None Examples.fifteen_predictions Examples.ten_news)
    (Examples.draft (Some "2,50")) initial =
    (Throw AuthenticationRequired, initial,
     [GetUser; ConsoleError "Error adding post:" AuthenticationRequired]) /\
  addNews (Examples.backend None Examples.fifteen_predictions Examples.ten_news)
    Examples.bulletin initial =
    (Throw AuthenticationRequired, initial,
     [GetUser; ConsoleError "Error adding news:" AuthenticationRequired]).
Proof.
  apply (@create_requires_authentication
           (Examples.backend None Examples.fifteen_predictions Examples.ten_news)).
  reflexivity.
Defined.

(** C10.  For an authenticated actor an empty or missing odds string is
    replaced by ["0"]: the call does not fail with [InvalidInput] and issues
    the insert of a prediction whose odds are 0, with the given text, image
    and confidence, the actor's identifier and zeroed counters. *)
Theorem addPost_defaults_odds_to_zero (be : Backend) (u : User) (p : NewPost) (s : State) :
  auth_getUser be = Fulfilled (Some u) ->
  totalOdds p = None \/ totalOdds p = Some "" ->
  oddsString p = "0" /\
  Js.parseFloat (oddsString p) = Js.Finite 0 /\
  result_of (addPost be p s) <> Throw InvalidInput /\
  exists row rest,
    trace_of (addPost be p s) = GetUser :: InsertPost row :: rest /\
    row_odds row = Js.Finite 0 /\
    row_content row = text p /\
    row_image_url row = image p /\
    row_confidence row = PostContext.confidence p /\
    row_user_id row = user_id u /\
    row_likes row = 0 /\ row_comments row = 0 /\ row_shares row = 0.
Proof.
  intros H Ho.
  assert (Es : oddsString p = "0").
  { unfold oddsString. destruct Ho as [Ho|Ho]; rewrite Ho; reflexivity. }
  assert (E : Js.parseFloat (oddsString p) = Js.Finite 0).
  { rewrite Es. reflexivity. }
  assert (Hn : Js.isNaN (Js.parseFloat (oddsString p)) = false)
    by (rewrite E; reflexivity).
  split; [exact Es|]. split; [exact E|].
  split; [apply (addPost_inserts_trace be p s H Hn)|].
  rewrite <- E. apply addPost_inserts_row; assumption.
Qed.

Lemma addPost_defaults_odds_to_zero_witness :
  (result_of (addPost Examples.twenty_five (Examples.draft (Some "")) initial)
   <> Throw InvalidInput /\
   exists row rest,
     trace_of (addPost Examples.twenty_five (Examples.draft (Some "")) initial)
     = GetUser :: InsertPost row :: rest /\
     row_odds row = Js.Finite 0 /\
     row_content row = "home win" /\
     row_image_url row = None /\
     row_confidence row = 60 /\
     row_user_id row = "u1" /\
     row_likes row = 0 /\ row_comments row = 0 /\ row_shares row = 0) /\
  (exists row rest,
     trace_of (addPost Examples.twenty_five (Examples.draft None) initial)
     = GetUser :: InsertPost row :: rest /\
     row_odds row = Js.Finite 0).
Proof.
  split.
  - destruct (@addPost_defaults_odds_to_zero Examples.twenty_five Examples.actor
                (Examples.draft (Some "")) initial eq_refl (or_intror eq_refl))
      as (_ & _ & H).
    exact H.
  - destruct (@addPost_defaults_odds_to_zero Examples.twenty_five Examples.actor
                (Examples.draft None) initial eq_refl (or_introl eq_refl))
      as (_ & _ & _ & row & rest & Ht & Ho & _).
    exists row, rest. split; [exact Ht | exact Ho].
Defined.

(** ** The like toggle *)

Import PostView.

Lemma handleLike_anonymous (be : Backend) (post localPost : PostProps) :
  handleLike be None post localPost = (Return tt, localPost, []).
Proof. reflexivity. Qed.

(** An activation on an item not marked as liked. *)
Lemma handleLike_likes (be : Backend) (u : User) (post localPost : PostProps) :
  Js.truthy_flag (isLiked localPost) = false ->
  resolves (insert_like be (table post) (idField post) (id localPost) (user_id u)) = true ->
  handleLike be (Some u) post localPost =
    (Return tt, with_like localPost (likes localPost + 1) true,
     [InsertLike (table post) (idField post) (id localPost) (user_id u)]).
Proof.
  intros Hf Hr. unfold handleLike, handleLike_from, try_catch, bind, await.
  rewrite Hf.
  destruct (insert_like be _ _ _ _); [reflexivity | discriminate].
Qed.

(** An activation on an item marked as liked. *)
Lemma handleLike_unlikes (be : Backend) (u : User) (post localPost : PostProps) :
  Js.truthy_flag (isLiked localPost) = true ->
  resolves (delete_like be (table post) (idField post) (id localPost) (user_id u)) = true ->
  handleLike be (Some u) post localPost =
    (Return tt, with_like localPost (likes localPost - 1) false,
     [DeleteLike (table post) (idField post) (id localPost) (user_id u)]).
Proof.
  intros Hf Hr. unfold handleLike, handleLike_from, try_catch, bind, await.
  rewrite Hf.
  destruct (delete_like be _ _ _ _); [reflexivity | discriminate].
Qed.

(** When the request rejects, the error is logged and the local state is
    left as it was. *)
Lemma handleLike_rejected (be : Backend) (u : User) (post localPost : PostProps) :
  resolves (insert_like be (table post) (idField post) (id localPost) (user_id u)) = false ->
  resolves (delete_like be (table post) (idField post) (id localPost) (user_id u)) = false ->
  result_of (handleLike be (Some u) post localPost) = Return tt /\
  state_of (handleLike be (Some u) post localPost) = localPost.
Proof.
  intros Hi Hd. unfold handleLike, handleLike_from, try_catch, bind, await.
  destruct (Js.truthy_flag (isLiked localPost)).
  - destruct (delete_like be _ _ _ _); [discriminate | split; reflexivity].
  - destruct (insert_like be _ _ _ _); [discriminate | split; reflexivity].
Qed.

Lemma with_like_twice (localPost : PostProps) (n : Z) (b b' : bool) :
  with_like (with_like localPost n b) (likes localPost) b'
  = with_like localPost (likes localPost) b'.
Proof. reflexivity. Qed.

(** C8, amended.  Two activations of the like toggle in a row, whose
    requests both resolve, bring the local counter back to its value and
    the local liked flag back to its truth value, and the whole local item
    back when the flag was a boolean: on an item not marked as liked the first inserts the join
    record and increments, the second deletes it and decrements, and the
    other way round on an item marked as liked. *)
Theorem handleLike_twice_restores (be : Backend) (user : option User)
    (post localPost : PostProps) :
  (forall u, user = Some u ->
     resolves (insert_like be (table post) (idField post) (id localPost) (user_id u)) = true) ->
  (forall u, user = Some u ->
     resolves (delete_like be (table post) (idField post) (id localPost) (user_id u)) = true) ->
  let once := state_of (handleLike be user post localPost) in
  let twice := state_of (handleLike be user post once) in
  likes twice = likes localPost /\
  Js.truthy_flag (isLiked twice) = Js.truthy_flag (isLiked localPost) /\
  (forall b, isLiked localPost = Some b -> twice = localPost) /\
  (forall u, user = Some u -> Js.truthy_flag (isLiked localPost) = false ->
     likes once = likes localPost + 1 /\
     isLiked once = Some true /\
     trace_of (handleLike be user post localPost)
     = [InsertLike (table post) (idField post) (id localPost) (user_id u)] /\
     trace_of (handleLike be user post once)
     = [DeleteLike (table post) (idField post) (id localPost) (user_id u)]) /\
  (forall u, user = Some u -> Js.truthy_flag (isLiked localPost) = true ->
     likes once = likes localPost - 1 /\
     isLiked once = Some false /\
     trace_of (handleLike be user post localPost)
     = [DeleteLike (table post) (idField post) (id localPost) (user_id u)] /\
     trace_of (handleLike be user post once)
     = [InsertLike (table post) (idField post) (id localPost) (user_id u)]).
Proof.
  intros Hi Hd once twice.
  destruct user as [u|].
  2:{ subst once twice. rewrite !handleLike_anonymous. unfold state_of; simpl.
      repeat split; try discriminate; auto. }
  destruct (Js.truthy_flag (isLiked localPost)) eqn:Hf.
  - assert (E1 : handleLike be (Some u) post localPost = _)
      by (apply handleLike_unlikes; [exact Hf | apply Hd; reflexivity]).
    assert (E2 : handleLike be (Some u) post (with_like localPost (likes localPost - 1) false) = _)
      by (apply handleLike_likes; [reflexivity | apply Hi; reflexivity]).
    subst once twice. rewrite E1. unfold state_of, trace_of. cbn [fst snd].
    rewrite E2. cbn [fst snd]. clear E1 E2. simpl.
    split; [lia|]. split; [reflexivity|]. split; [|split].
    + intros b Hb. destruct localPost; simpl in *. subst.
      destruct b; [|discriminate]. unfold with_like; simpl. f_equal. lia.
    + intros u0 _ Hc. discriminate Hc.
    + intros u0 Hu _. injection Hu as <-. repeat split.
  - assert (E1 : handleLike be (Some u) post localPost = _)
      by (apply handleLike_likes; [exact Hf | apply Hi; reflexivity]).
    assert (E2 : handleLike be (Some u) post (with_like localPost (likes localPost + 1) true) = _)
      by (apply handleLike_unlikes; [reflexivity | apply Hd; reflexivity]).
    subst once twice. rewrite E1. unfold state_of, trace_of. cbn [fst snd].
    rewrite E2. cbn [fst snd]. clear E1 E2. simpl.
    split; [lia|]. split; [reflexivity|]. split; [|split].
    + intros b Hb. destruct localPost; simpl in *. subst.
      destruct b; [discriminate|]. unfold with_like; simpl. f_equal. lia.
    + intros u0 Hu _. injection Hu as <-. repeat split.
    + intros u0 _ Hc. discriminate Hc.
Qed.

Lemma handleLike_twice_restores_witness :
  let once := state_of (handleLike Examples.twenty_five (Some Examples.actor)
                          (Examples.card None 7) (Examples.card None 7)) in
  let twice := state_of (handleLike Examples.twenty_five (Some Examples.actor)
                           (Examples.card None 7) once) in
  likes once = 8 /\ likes twice = 7 /\
  Js.truthy_flag (isLiked twice) = Js.truthy_flag (isLiked (Examples.card None 7)).
Proof.
  intros once twice.
  destruct (@handleLike_twice_restores Examples.twenty_five (Some Examples.actor)
              (Examples.card None 7) (Examples.card None 7)
              (fun _ _ => eq_refl) (fun _ _ => eq_refl))
    as (Hl & Hf & _ & Hup & _).
  destruct (Hup Examples.actor eq_refl eq_refl) as (H1 & _).
  split; [exact H1|]. split; [exact Hl | exact Hf].
Defined.

(** C8, as stated, fails in two ways.  An item whose liked flag is
    [undefined], as for every row that comes from the feed, ends with the
    flag [false] after two activations, not with its original value; and
    when the second request rejects, the second activation changes
    nothing, so that the counter stays one above its original value. *)
Lemma handleLike_twice_not_always_restored :
  (let localPost := Examples.card None 7 in
   let once := state_of (handleLike Examples.twenty_five (Some Examples.actor)
                           localPost localPost) in
   let twice := state_of (handleLike Examples.twenty_five (Some Examples.actor)
                            localPost once) in
   isLiked localPost = None /\ isLiked twice = Some false /\
   isLiked twice <> isLiked localPost) /\
  (let localPost := Examples.card (Some false) 7 in
   let once := state_of (handleLike Scenarios.unlike_offline (Some Examples.actor)
                           localPost localPost) in
   let twice := state_of (handleLike Scenarios.unlike_offline (Some Examples.actor)
                            localPost once) in
   likes localPost = 7 /\ likes once = 8 /\ likes twice = 8 /\
   isLiked twice = Some true /\
   likes twice <> likes localPost /\ isLiked twice <> isLiked localPost).
Proof.
  split; cbv zeta; repeat split; try reflexivity; vm_compute; intros H; discriminate H.
Qed.

(** C9.  Without an authenticated user an activation of the like toggle
    does nothing: no insert or delete is issued, and the local counter and
    liked flag, like the rest of the local state, are unchanged. *)
Theorem handleLike_noop_when_anonymous (be : Backend) (post localPost : PostProps) :
  result_of (handleLike be None post localPost) = Return tt /\
  state_of (handleLike be None post localPost) = localPost /\
  likes (state_of (handleLike be None post localPost)) = likes localPost /\
  isLiked (state_of (handleLike be None post localPost)) = isLiked localPost /\
  trace_of (handleLike be None post localPost) = [].
Proof.
  rewrite handleLike_anonymous. repeat split.
Qed.

(** * Further properties of the feed store *)

Lemma filter_none {A} (f : A -> bool) (l : list A) :
  (forall x, In x l -> f x = false) -> filter f l = [].
Proof.
  induction l as [|x l IH]; simpl; intros H; [reflexivity|].
  rewrite (H x (or_introl eq_refl)). apply IH. intros y Hy. apply H. right. exact Hy.
Qed.

Lemma filter_all {A} (f : A -> bool) (l : list A) :
  (forall x, In x l -> f x = true) -> filter f l = l.
Proof.
  induction l as [|x l IH]; simpl; intros H; [reflexivity|].
  rewrite (H x (or_introl eq_refl)). f_equal. apply IH. intros y Hy. apply H. right. exact Hy.
Qed.

Lemma uniqueContent_unseen (old all : list FeedItem) (x : FeedItem) :
  In x (uniqueContent old all) -> ~ In (item_id x) (map item_id old).
Proof.
  unfold uniqueContent. intros H. apply filter_In in H. destruct H as [_ H].
  rewrite <- held_spec. destruct (held old x); [discriminate | congruence].
Qed.

(** The outcome of a call, by cases on the guard and on the two queries. *)
Lemma fetchMorePosts_cases (be : Backend) (s : State) :
  (loading s = true \/ hasMore s = false) \/
  (loading s = false /\ hasMore s = true /\
   (fails (select_posts be (range_from s) (range_to s)) = true \/
    fails (select_news be (range_from s) (range_to s)) = true)) \/
  (loading s = false /\ hasMore s = true /\
   exists rp rn,
     select_posts be (range_from s) (range_to s) = Fulfilled rp /\
     select_news be (range_from s) (range_to s) = Fulfilled rn /\
     error rp = None /\ error rn = None).
Proof.
  destruct (loading s); [left; left; reflexivity|].
  destruct (hasMore s); [|left; right; reflexivity].
  right.
  destruct (select_posts be (range_from s) (range_to s)) as [rp|ep] eqn:Hp;
    [|left; simpl; auto].
  destruct (select_news be (range_from s) (range_to s)) as [rn|en] eqn:Hn;
    [|left; simpl; auto].
  simpl.
  destruct (error rp) eqn:Ep; [left; auto|].
  destruct (error rn) eqn:En; [left; auto|].
  right. repeat split. exists rp, rn. auto.
Qed.

(** X1.  Over any sequence of fetches and creations, each made after the
    previous one has completed, the held list keeps pairwise distinct
    identifiers, provided the backend never answers with a clashing
    identifier: no page has an identifier twice and no insert returns a row
    whose identifier is already held. *)
Theorem perform_all_keeps_distinct_ids (l : list action) (s : State) :
  all_answer_distinctly l s -> distinct_ids (posts s) ->
  distinct_ids (posts (perform_all l s)).
Proof.
  revert s. induction l as [|a l IH]; simpl; intros s Hl Hs; [exact Hs|].
  destruct Hl as [Ha Hl]. apply IH; [exact Hl|]. clear IH Hl.
  destruct a as [be | be p | be n]; simpl in *.
  - destruct (fetchMorePosts_posts be s) as [E | (rp & rn & Hp & Hn & E)]; rewrite E.
    + exact Hs.
    + apply append_unique_distinct; [exact Hs | exact (Ha _ _ Hp Hn)].
  - unfold addPost, try_catch, bind, await, state_of.
    destruct (auth_getUser be) as [[u|]|]; simpl; try exact Hs.
    destruct (Js.isNaN _); simpl; try exact Hs.
    destruct (insert_post be _) as [r|] eqn:Hi; simpl; try exact Hs.
    unfold throw_if_error. destruct (error r); simpl; try exact Hs.
    destruct (data r) as [d|] eqn:Hd; simpl; try exact Hs.
    unfold distinct_ids. simpl. constructor; [exact (Ha _ _ _ Hi Hd) | exact Hs].
  - unfold addNews, try_catch, bind, await, state_of.
    destruct (auth_getUser be) as [[u|]|]; simpl; try exact Hs.
    destruct (insert_news be _) as [r|] eqn:Hi; simpl; try exact Hs.
    unfold throw_if_error. destruct (error r); simpl; try exact Hs.
    destruct (data r) as [d|] eqn:Hd; simpl; try exact Hs.
    unfold distinct_ids. simpl. constructor; [exact (Ha _ _ _ Hi Hd) | exact Hs].
Qed.

Lemma perform_all_keeps_distinct_ids_witness :
  distinct_ids
    (posts (perform_all
              [AddPost Examples.twenty_five (Examples.draft (Some "2,50"));
               FetchMore Examples.twenty_five]
              initial)).
Proof.
  apply perform_all_keeps_distinct_ids.
  - simpl. split; [|split; [|exact I]].
    + intros row r d H _. simpl. tauto.
    + intros rp rn Hp Hn. vm_compute in Hp, Hn.
      injection Hp as <-. injection Hn as <-.
      unfold distinct_ids. vm_compute.
      repeat (constructor; [simpl; intuition discriminate|]). constructor.
  - constructor.
Defined.

(** X2.  A call only ever appends: the list held before is a prefix of the
    list held after, and every item added carries an identifier that was
    not held before. *)
Theorem fetchMorePosts_only_appends (be : Backend) (s : State) :
  exists added,
    posts (state_of (fetchMorePosts be s)) = posts s ++ added /\
    forall x, In x added -> ~ In (item_id x) (map item_id (posts s)).
Proof.
  destruct (fetchMorePosts_posts be s) as [E | (rp & rn & _ & _ & E)].
  - exists []. rewrite E, app_nil_r. split; [reflexivity | intros x []].
  - exists (uniqueContent (posts s) (allContent rp rn)). split; [exact E|].
    intros x. apply uniqueContent_unseen.
Qed.

(** X3.  However the queries settle, a call hands back the [loading] flag
    as it found it: a call that runs clears the flag it had set, also when
    a query fails, and a skipped call does not touch it. *)
Theorem fetchMorePosts_restores_loading (be : Backend) (s : State) :
  loading (state_of (fetchMorePosts be s)) = loading s /\
  result_of (fetchMorePosts be s) = Return tt.
Proof.
  destruct (fetchMorePosts_cases be s)
    as [H | [(Hl & Hm & Hf) | (Hl & Hm & rp & rn & Hp & Hn & Ep & En)]].
  - rewrite (fetchMorePosts_skipped be s H). split; reflexivity.
  - destruct (fetchMorePosts_failed be s Hl Hm Hf) as [e He]. rewrite He.
    split; reflexivity.
  - rewrite (fetchMorePosts_ok be s Hl Hm Hp Hn Ep En).
    unfold state_of, result_of; simpl. rewrite Hl. split; reflexivity.
Qed.

(** X4.  A call that is not skipped issues exactly two queries, on [posts]
    and on [news], both for the twenty rows [20 * page .. 20 * page + 19],
    whatever they answer; the only other effect it can have outside the
    state is one line on the console. *)
Theorem fetchMorePosts_requests_one_page (be : Backend) (s : State) :
  loading s = false -> hasMore s = true ->
  exists rest,
    trace_of (fetchMorePosts be s)
    = Select "posts" (20 * page s) (20 * page s + 19)
      :: Select "news" (20 * page s) (20 * page s + 19) :: rest /\
    (rest = [] \/ exists e, rest = [ConsoleError "Error fetching content:" e]).
Proof.
  intros Hl Hm.
  assert (Ef : range_from s = 20 * page s) by (unfold range_from, POSTS_PER_PAGE; lia).
  assert (Et : range_to s = 20 * page s + 19) by (unfold range_to, POSTS_PER_PAGE; lia).
  rewrite <- Et, <- Ef.
  destruct (fetchMorePosts_cases be s)
    as [[H|H] | [(_ & _ & Hf) | (_ & _ & rp & rn & Hp & Hn & Ep & En)]];
    try congruence.
  - destruct (fetchMorePosts_failed be s Hl Hm Hf) as [e He]. rewrite He.
    eexists. split; [reflexivity|]. right. eexists. reflexivity.
  - rewrite (fetchMorePosts_ok be s Hl Hm Hp Hn Ep En).
    eexists. split; [reflexivity|]. left. reflexivity.
Qed.

Lemma fetchMorePosts_requests_one_page_witness :
  exists rest,
    trace_of (fetchMorePosts Scenarios.offline
                {| posts := []; loading := false; hasMore := true; page := 3 |})
    = Select "posts" 60 79 :: Select "news" 60 79 :: rest /\
    (rest = [] \/ exists e, rest = [ConsoleError "Error fetching content:" e]).
Proof.
  apply (@fetchMorePosts_requests_one_page Scenarios.offline
           {| posts := []; loading := false; hasMore := true; page := 3 |});
    reflexivity.
Defined.

(** Once a call is skipped, every later call is. *)
Lemma fetch_sequence_skipped (calls : list Backend) (s : State) :
  loading s = true \/ hasMore s = false -> fetch_sequence calls s = s.
Proof.
  intros H. induction calls as [|be rest IH]; simpl; [reflexivity|].
  rewrite (fetchMorePosts_skipped be s H). exact IH.
Qed.

(** X5.  The page counter moves only by one and only forward, and it does
    so exactly when the call was not skipped and both queries answered
    without an error; a failed call will request the same page again. *)
Theorem page_advances_iff_fetched (be : Backend) (s : State) :
  (page (state_of (fetchMorePosts be s)) = page s + 1 <->
   loading s = false /\ hasMore s = true /\
   fails (select_posts be (range_from s) (range_to s)) = false /\
   fails (select_news be (range_from s) (range_to s)) = false) /\
  (page (state_of (fetchMorePosts be s)) <> page s + 1 ->
   page (state_of (fetchMorePosts be s)) = page s).
Proof.
  destruct (fetchMorePosts_cases be s)
    as [H | [(Hl & Hm & Hf) | (Hl & Hm & rp & rn & Hp & Hn & Ep & En)]].
  - rewrite (fetchMorePosts_skipped be s H). unfold state_of; simpl.
    split; [|reflexivity]. split; [lia|]. intros (Hl & Hm & _).
    destruct H; congruence.
  - destruct (fetchMorePosts_failed be s Hl Hm Hf) as [e He]. rewrite He.
    unfold state_of; simpl. split; [|reflexivity]. split; [lia|].
    intros (_ & _ & H1 & H2). destruct Hf; congruence.
  - rewrite (fetchMorePosts_ok be s Hl Hm Hp Hn Ep En). unfold state_of; simpl.
    split; [|intros H; contradiction H; reflexivity].
    split; [|reflexivity]. intros _. rewrite Hp, Hn. simpl. rewrite Ep, En. auto.
Qed.

(** X6.  A state in which [hasMore] is false, or [loading] is true, is
    final for fetching: whatever the backends would answer, no sequence of
    calls changes any part of it. *)
Theorem fetch_sequence_final_once_exhausted (calls : list Backend) (s : State) :
  loading s = true \/ hasMore s = false ->
  fetch_sequence calls s = s.
Proof. apply fetch_sequence_skipped. Qed.

Lemma fetch_sequence_final_once_exhausted_witness :
  let s := {| posts := [Prediction (Examples.prediction "p01" 10)];
              loading := false; hasMore := false; page := 1 |} in
  fetch_sequence [Examples.twenty_five; Scenarios.forty; Scenarios.offline] s = s.
Proof.
  intros s.
  apply (@fetch_sequence_final_once_exhausted
           [Examples.twenty_five; Scenarios.forty; Scenarios.offline] s).
  right. reflexivity.
Defined.

(** X7.  When the two queries succeed but bring nothing whose identifier
    is not already held (empty results and [data: null] included), the
    held list stays as it is, the page counter still advances, and
    [hasMore] becomes false, so that no later call fetches again. *)
Theorem fetchMorePosts_nothing_new (be : Backend) (s : State)
    (rp : Response (list Post.t)) (rn : Response (list News.t)) :
  loading s = false -> hasMore s = true ->
  select_posts be (range_from s) (range_to s) = Fulfilled rp ->
  select_news be (range_from s) (range_to s) = Fulfilled rn ->
  error rp = None -> error rn = None ->
  (forall x, In x (post_rows rp ++ news_rows rn) ->
             In (item_id x) (map item_id (posts s))) ->
  posts (state_of (fetchMorePosts be s)) = posts s /\
  hasMore (state_of (fetchMorePosts be s)) = false /\
  page (state_of (fetchMorePosts be s)) = page s + 1 /\
  forall calls,
    fetch_sequence calls (state_of (fetchMorePosts be s))
    = state_of (fetchMorePosts be s).
Proof.
  intros Hl Hm Hp Hn Ep En Hall.
  assert (Eu : uniqueContent (posts s) (allContent rp rn) = []).
  { unfold uniqueContent. apply filter_none. intros x Hx.
    apply (Permutation_in _ (sort_by_date_perm _)) in Hx.
    apply Hall, held_spec in Hx. rewrite Hx. reflexivity. }
  assert (Hh : hasMore (state_of (fetchMorePosts be s)) = false).
  { rewrite (fetchMorePosts_ok be s Hl Hm Hp Hn Ep En). unfold state_of; simpl.
    rewrite Eu. reflexivity. }
  split; [|split; [exact Hh | split]].
  - rewrite (fetchMorePosts_ok be s Hl Hm Hp Hn Ep En). unfold state_of; simpl.
    rewrite Eu. apply app_nil_r.
  - rewrite (fetchMorePosts_ok be s Hl Hm Hp Hn Ep En). reflexivity.
  - intros calls. apply fetch_sequence_skipped. right. exact Hh.
Qed.

Lemma fetchMorePosts_nothing_new_witness :
  let s := state_of (fetchMorePosts Examples.twenty_five initial) in
  let s' := {| posts := posts s; loading := false; hasMore := true; page := 0 |} in
  posts (state_of (fetchMorePosts Examples.twenty_five s')) = posts s' /\
  hasMore (state_of (fetchMorePosts Examples.twenty_five s')) = false /\
  page (state_of (fetchMorePosts Examples.twenty_five s')) = 1.
Proof.
  intros s s'.
  destruct (@fetchMorePosts_nothing_new Examples.twenty_five s'
              (Examples.ok Examples.fifteen_predictions) (Examples.ok Examples.ten_news)
              eq_refl eq_refl eq_refl eq_refl eq_refl eq_refl) as (H1 & H2 & H3 & _).
  - intros x Hx. vm_compute in Hx. vm_compute.
    repeat (destruct Hx as [<-|Hx]; [simpl; tauto|]). destruct Hx.
  - split; [exact H1 | split; [exact H2 | exact H3]].
Defined.

(** X8.  Where creation times are equal the merged page keeps the order
    of the concatenation: the predictions in the order of their query,
    then the news items in the order of theirs (the engine's sort is
    stable). *)
Theorem allContent_keeps_query_order_on_ties
    (rp : Response (list Post.t)) (rn : Response (list News.t)) (t : Z) :
  filter (fun x => item_created_at x =? t) (allContent rp rn)
  = filter (fun x => item_created_at x =? t) (post_rows rp)
    ++ filter (fun x => item_created_at x =? t) (news_rows rn).
Proof.
  unfold allContent. rewrite sort_by_date_stable. apply filter_app.
Qed.

(** X9.  When none of the fetched identifiers is held, everything fetched
    is appended and [hasMore] is true exactly when the two result sets
    count 20 rows together.  Two full pages of 20 rows each therefore
    append 40 items and end the pagination. *)
Theorem fetchMorePosts_all_new (be : Backend) (s : State)
    (rp : Response (list Post.t)) (rn : Response (list News.t)) :
  loading s = false -> hasMore s = true ->
  select_posts be (range_from s) (range_to s) = Fulfilled rp ->
  select_news be (range_from s) (range_to s) = Fulfilled rn ->
  error rp = None -> error rn = None ->
  (forall x, In x (post_rows rp ++ news_rows rn) ->
             ~ In (item_id x) (map item_id (posts s))) ->
  length (posts (state_of (fetchMorePosts be s)))
  = (length (posts s) + (length (post_rows rp) + length (news_rows rn)))%nat /\
  (hasMore (state_of (fetchMorePosts be s)) = true <->
   (length (post_rows rp) + length (news_rows rn) = 20)%nat) /\
  (length (post_rows rp) = 20%nat -> length (news_rows rn) = 20%nat ->
   forall calls,
     fetch_sequence calls (state_of (fetchMorePosts be s))
     = state_of (fetchMorePosts be s)).
Proof.
  intros Hl Hm Hp Hn Ep En Hnew.
  assert (Eu : uniqueContent (posts s) (allContent rp rn) = allContent rp rn).
  { unfold uniqueContent. apply filter_all. intros x Hx.
    apply (Permutation_in _ (sort_by_date_perm _)) in Hx.
    apply Hnew in Hx. rewrite <- held_spec in Hx.
    destruct (held (posts s) x); [congruence | reflexivity]. }
  assert (El : length (allContent rp rn)
               = (length (post_rows rp) + length (news_rows rn))%nat).
  { unfold allContent. rewrite (Permutation_length (sort_by_date_perm _)).
    apply length_app. }
  assert (Hh : hasMore (state_of (fetchMorePosts be s)) = true <->
               (length (post_rows rp) + length (news_rows rn) = 20)%nat).
  { rewrite (fetchMorePosts_ok be s Hl Hm Hp Hn Ep En). unfold state_of; simpl.
    rewrite Eu, El, Z.eqb_eq. unfold POSTS_PER_PAGE. lia. }
  split; [|split; [exact Hh|]].
  - rewrite (fetchMorePosts_ok be s Hl Hm Hp Hn Ep En). unfold state_of; simpl.
    rewrite Eu, length_app, El. reflexivity.
  - intros H1 H2 calls. apply fetch_sequence_skipped. right.
    destruct (hasMore (state_of (fetchMorePosts be s))); [|reflexivity].
    assert (H : (length (post_rows rp) + length (news_rows rn) = 20)%nat)
      by (apply Hh; reflexivity).
    lia.
Qed.

Lemma fetchMorePosts_all_new_witness :
  length (posts (state_of (fetchMorePosts Scenarios.forty initial))) = 40%nat /\
  hasMore (state_of (fetchMorePosts Scenarios.forty initial)) = false /\
  fetch_sequence [Scenarios.forty; Scenarios.forty]
    (state_of (fetchMorePosts Scenarios.forty initial))
  = state_of (fetchMorePosts Scenarios.forty initial).
Proof.
  destruct (@fetchMorePosts_all_new Scenarios.forty initial
              (Examples.ok Scenarios.twenty_predictions) (Examples.ok Scenarios.twenty_news)
              eq_refl eq_refl eq_refl eq_refl eq_refl eq_refl) as (H1 & H2 & H3).
  - intros x _ H. exact H.
  - split; [exact H1 | split].
    + destruct (hasMore (state_of (fetchMorePosts Scenarios.forty initial))) eqn:E;
        [|reflexivity].
      assert (H : (20 + 20 = 20)%nat) by (apply H2; reflexivity). discriminate H.
    + apply H3; reflexivity.
Defined.

(** * Further properties of the creations *)

Lemma addNews_inserts (be : Backend) (u : User) (n : NewNews) (s : State) :
  auth_getUser be = Fulfilled (Some u) ->
  addNews be n s =
    match insert_news be (news_row n u) with
    | Rejected e =>
        (Throw (RemoteOperationFailed e), s,
         [GetUser; InsertNews (news_row n u);
          ConsoleError "Error adding news:" (RemoteOperationFailed e)])
    | Fulfilled r =>
        match error r, data r with
        | Some e, _ =>
            (Throw (RemoteOperationFailed e), s,
             [GetUser; InsertNews (news_row n u);
              ConsoleError "Error adding news:" (RemoteOperationFailed e)])
        | None, Some d =>
            (Return tt,
             {| posts := NewsItem d :: posts s; loading := loading s;
                hasMore := hasMore s; page := page s |},
             [GetUser; InsertNews (news_row n u)])
        | None, None => (Return tt, s, [GetUser; InsertNews (news_row n u)])
        end
    end.
Proof.
  intros H. unfold addNews, try_catch, bind, await. rewrite H. simpl.
  destruct (insert_news be _) as [r|e]; simpl; [|reflexivity].
  unfold throw_if_error. destruct (error r); simpl; [reflexivity|].
  destruct (data r); reflexivity.
Qed.

(** X10.  With a user signed in, odds that parse and an insert answered
    with a row and no error, [addPost] returns normally having put exactly
    that row at the front of the held list; the other cells are untouched
    and the row sent carries the user's identifier and zeroed counters. *)
Theorem addPost_success_prepends (be : Backend) (u : User) (p : NewPost) (s : State)
    (r : Response Post.t) (d : Post.t) :
  auth_getUser be = Fulfilled (Some u) ->
  Js.isNaN (Js.parseFloat (oddsString p)) = false ->
  insert_post be (post_row p (Js.parseFloat (oddsString p)) u) = Fulfilled r ->
  error r = None -> data r = Some d ->
  addPost be p s =
    (Return tt,
     {| posts := Prediction d :: posts s; loading := loading s;
        hasMore := hasMore s; page := page s |},
     [GetUser; InsertPost (post_row p (Js.parseFloat (oddsString p)) u)]) /\
  row_user_id (post_row p (Js.parseFloat (oddsString p)) u) = user_id u /\
  row_likes (post_row p (Js.parseFloat (oddsString p)) u) = 0 /\
  row_comments (post_row p (Js.parseFloat (oddsString p)) u) = 0 /\
  row_shares (post_row p (Js.parseFloat (oddsString p)) u) = 0.
Proof.
  intros H Hn Hi Ee Ed. rewrite (addPost_inserts be p s H Hn). cbv zeta.
  rewrite Hi, Ee, Ed. repeat split.
Qed.

Lemma addPost_success_prepends_witness :
  posts (state_of (addPost Examples.twenty_five (Examples.draft (Some "1,75"))
                     (state_of (fetchMorePosts Examples.twenty_five initial))))
  = Prediction
      (Examples.stored_post
         (post_row (Examples.draft (Some "1,75")) (Js.Finite (7 # 4)) Examples.actor))
    :: posts (state_of (fetchMorePosts Examples.twenty_five initial)).
Proof.
  destruct (@addPost_success_prepends Examples.twenty_five Examples.actor
              (Examples.draft (Some "1,75"))
              (state_of (fetchMorePosts Examples.twenty_five initial))
              _ _ eq_refl eq_refl eq_refl eq_refl eq_refl) as (H & _).
  rewrite H. reflexivity.
Defined.

(** X11.  When the insert of [addPost] fails, by rejecting or by answering
    with an error, that error is logged and thrown to the caller, and no
    cell of the state changes. *)
Theorem addPost_insert_failure_rethrown (be : Backend) (u : User) (p : NewPost) (s : State) :
  auth_getUser be = Fulfilled (Some u) ->
  Js.isNaN (Js.parseFloat (oddsString p)) = false ->
  fails (insert_post be (post_row p (Js.parseFloat (oddsString p)) u)) = true ->
  exists e,
    addPost be p s =
      (Throw (RemoteOperationFailed e), s,
       [GetUser; InsertPost (post_row p (Js.parseFloat (oddsString p)) u);
        ConsoleError "Error adding post:" (RemoteOperationFailed e)]).
Proof.
  intros H Hn Hf. rewrite (addPost_inserts be p s H Hn). cbv zeta.
  destruct (insert_post be _) as [r|e]; simpl in Hf.
  - destruct (error r) as [e|]; [|discriminate]. exists e. reflexivity.
  - exists e. reflexivity.
Qed.

Lemma addPost_insert_failure_rethrown_witness :
  exists e,
    addPost Scenarios.likes_denied (Examples.draft (Some "2")) initial =
      (Throw (RemoteOperationFailed e), initial,
       [GetUser;
        InsertPost (post_row (Examples.draft (Some "2"))
                      (Js.parseFloat (oddsString (Examples.draft (Some "2"))))
                      Examples.actor);
        ConsoleError "Error adding post:" (RemoteOperationFailed e)]).
Proof.
  apply (@addPost_insert_failure_rethrown Scenarios.likes_denied Examples.actor
           (Examples.draft (Some "2")) initial); reflexivity.
Defined.

(** The cases of the two frame properties, one per path through the
    function. *)
Ltac frame_case :=
  split; [reflexivity|]; split; [reflexivity|]; split; [reflexivity|];
  split; [solve [left; reflexivity | right; eexists; reflexivity]|];
  split;
  [ intros e E;
    first [ discriminate E
          | injection E as <-; split;
            [ reflexivity
            | first [ exists [GetUser]; reflexivity
                    | eexists [GetUser; _]; reflexivity ] ] ]
  | intros E;
    first [ discriminate E | eexists; simpl; right; left; reflexivity ] ].

(** X12.  Whatever the backend answers, [addPost] leaves [loading],
    [hasMore] and the page counter alone and changes the held list at most
    by one prediction put at its front; when it throws, the state is
    exactly as before and the error thrown is the last thing logged; when
    it returns normally, an insert was issued. *)
Theorem addPost_frame (be : Backend) (p : NewPost) (s : State) :
  loading (state_of (addPost be p s)) = loading s /\
  hasMore (state_of (addPost be p s)) = hasMore s /\
  page (state_of (addPost be p s)) = page s /\
  (posts (state_of (addPost be p s)) = posts s \/
   exists d, posts (state_of (addPost be p s)) = Prediction d :: posts s) /\
  (forall e, result_of (addPost be p s) = Throw e ->
     state_of (addPost be p s) = s /\
     exists before,
       trace_of (addPost be p s) = before ++ [ConsoleError "Error adding post:" e]) /\
  (result_of (addPost be p s) = Return tt ->
     exists row, In (InsertPost row) (trace_of (addPost be p s))).
Proof.
  unfold addPost, try_catch, bind, await, result_of, state_of, trace_of.
  destruct (auth_getUser be) as [[u|]|e0]; simpl; [|frame_case|frame_case].
  destruct (Js.isNaN _); simpl; [frame_case|].
  destruct (insert_post be _) as [r|e1]; simpl; [|frame_case].
  unfold throw_if_error. destruct (error r) as [e1|]; simpl; [frame_case|].
  destruct (data r) as [d|]; simpl; frame_case.
Qed.

(** X13.  With a user signed in and an insert answered with a row and no
    error, [addNews] returns normally having put exactly that row at the
    front of the held list; an empty source is sent as [null]. *)
Theorem addNews_success_prepends (be : Backend) (u : User) (n : NewNews) (s : State)
    (r : Response News.t) (d : News.t) :
  auth_getUser be = Fulfilled (Some u) ->
  insert_news be (news_row n u) = Fulfilled r ->
  error r = None -> data r = Some d ->
  addNews be n s =
    (Return tt,
     {| posts := NewsItem d :: posts s; loading := loading s;
        hasMore := hasMore s; page := page s |},
     [GetUser; InsertNews (news_row n u)]) /\
  (nrow_source (news_row n u) = None <-> PostContext.source n = "") /\
  (PostContext.source n <> "" -> nrow_source (news_row n u) = Some (PostContext.source n)) /\
  nrow_user_id (news_row n u) = user_id u /\
  nrow_likes (news_row n u) = 0 /\
  nrow_comments (news_row n u) = 0 /\
  nrow_shares (news_row n u) = 0.
Proof.
  intros H Hi Ee Ed. rewrite (addNews_inserts be n s H). rewrite Hi, Ee, Ed.
  split; [reflexivity|]. unfold news_row; simpl.
  destruct (PostContext.source n); repeat split; try discriminate; congruence.
Qed.

Lemma addNews_success_prepends_witness :
  posts (state_of (addNews Examples.twenty_five Scenarios.headline initial))
  = [NewsItem (Examples.stored_news (news_row Scenarios.headline Examples.actor))] /\
  nrow_source (news_row Scenarios.headline Examples.actor) = Some "L'Equipe" /\
  nrow_source (news_row Examples.bulletin Examples.actor) = None.
Proof.
  destruct (@addNews_success_prepends Examples.twenty_five Examples.actor
              Scenarios.headline initial _ _ eq_refl eq_refl eq_refl eq_refl)
    as (H & _ & Hs & _).
  destruct (@addNews_success_prepends Examples.twenty_five Examples.actor
              Examples.bulletin initial _ _ eq_refl eq_refl eq_refl eq_refl)
    as (_ & [_ Hn] & _).
  rewrite H. split; [reflexivity|]. split; [apply Hs; discriminate | apply Hn; reflexivity].
Defined.

(** X14.  Whatever the backend answers, [addNews] leaves [loading],
    [hasMore] and the page counter alone and changes the held list at most
    by one news item put at its front; when it throws, the state is exactly
    as before and the error thrown is the last thing logged; when it
    returns normally, an insert was issued. *)
Theorem addNews_frame (be : Backend) (n : NewNews) (s : State) :
  loading (state_of (addNews be n s)) = loading s /\
  hasMore (state_of (addNews be n s)) = hasMore s /\
  page (state_of (addNews be n s)) = page s /\
  (posts (state_of (addNews be n s)) = posts s \/
   exists d, posts (state_of (addNews be n s)) = NewsItem d :: posts s) /\
  (forall e, result_of (addNews be n s) = Throw e ->
     state_of (addNews be n s) = s /\
     exists before,
       trace_of (addNews be n s) = before ++ [ConsoleError "Error adding news:" e]) /\
  (result_of (addNews be n s) = Return tt ->
     exists row, In (InsertNews row) (trace_of (addNews be n s))).
Proof.
  unfold addNews, try_catch, bind, await, result_of, state_of, trace_of.
  destruct (auth_getUser be) as [[u|]|e0]; simpl; [|frame_case|frame_case].
  destruct (insert_news be _) as [r|e1]; simpl; [|frame_case].
  unfold throw_if_error. destruct (error r) as [e1|]; simpl; [frame_case|].
  destruct (data r) as [d|]; simpl; frame_case.
Qed.

(** [digits] only counts upwards. *)
Lemma digits_counts_up (s : string) (acc n : Z) :
  n <= snd (fst (Js.digits s acc n)).
Proof.
  revert acc n. induction s as [|c r IH]; intros acc n; simpl; [lia|].
  destruct (Js.is_digit c); [|simpl; lia].
  apply Z.le_trans with (n + 1); [lia | apply IH].
Qed.

(** Shifting a mantissa to the right keeps it from becoming negative. *)
Lemma shr_1_nonneg (mrs : shr_record) : 0 <= shr_m mrs -> 0 <= shr_m (shr_1 mrs).
Proof.
  destruct mrs as [m r t]; simpl; intros H.
  destruct m as [|[p|p|]|p]; simpl; lia.
Qed.

Lemma iter_shr_1_nonneg (p : positive) (mrs : shr_record) :
  0 <= shr_m mrs -> 0 <= shr_m (iter_pos shr_1 p mrs).
Proof.
  revert mrs. induction p as [p IH|p IH|]; intros mrs H; simpl.
  - apply IH, IH, shr_1_nonneg, H.
  - apply IH, IH, H.
  - apply shr_1_nonneg, H.
Qed.

Lemma shr_fexp_nonneg (m e : Z) (l : location) :
  0 <= m -> 0 <= shr_m (fst (shr_fexp 53 1024 m e l)).
Proof.
  intros H. unfold shr_fexp, shr.
  assert (H0 : 0 <= shr_m (shr_record_of_loc m l))
    by (destruct l as [|[]]; exact H).
  destruct (fexp 53 1024 (Zdigits2 m + e) - e); simpl; auto.
  apply iter_shr_1_nonneg, H0.
Qed.

(** Rounding a mantissa that is not negative never gives [NaN]. *)
Lemma binary_round_aux_not_nan (sx : bool) (mx ex : Z) (lx : location) :
  0 <= mx -> binary_round_aux 53 1024 sx mx ex lx <> S754_nan.
Proof.
  intros H. unfold binary_round_aux.
  pose proof (shr_fexp_nonneg ex lx H) as H1.
  destruct (shr_fexp 53 1024 mx ex lx) as [mrs1 e1]. simpl in H1.
  assert (H2 : 0 <= round_nearest_even (shr_m mrs1) (loc_of_shr_record mrs1)).
  { unfold round_nearest_even.
    destruct (loc_of_shr_record mrs1) as [|[]]; try lia.
    destruct (Z.even (shr_m mrs1)); lia. }
  pose proof (shr_fexp_nonneg e1 loc_Exact H2) as H3.
  destruct (shr_fexp 53 1024 _ e1 loc_Exact) as [mrs2 e2]. simpl in H3.
  destruct (shr_m mrs2) as [|m|m]; [discriminate | | lia].
  destruct (e2 <=? 1024 - 53); discriminate.
Qed.

(** The Number value of a decimal is a number. *)
Lemma round_decimal_is_number (negative : bool) (m k : Z) :
  Js.isNaN (Js.of_binary64 (Js.round_decimal negative m k)) = false.
Proof.
  assert (H : Js.round_decimal negative m k <> S754_nan).
  { unfold Js.round_decimal. destruct m as [|p|p]; try discriminate.
    destruct (0 <=? k).
    - unfold binary_round.
      destruct (shl_align _ _ _) as [mz ez]. apply binary_round_aux_not_nan. lia.
    - unfold SFdiv.
      destruct (SFdiv_core_binary 53 1024 (Z.pos p) 0 (Z.pos (Z.to_pos (10 ^ (- k)))) 0)
        as [[mz ez] lz] eqn:E.
      apply binary_round_aux_not_nan.
      unfold SFdiv_core_binary in E.
      set (m' := match _ - _ - _ with Z.pos _ => _ | 0 => _ | Z.neg _ => _ end) in E.
      assert (Hm : 0 <= m').
      { subst m'. destruct (_ - _ - _); try lia. apply Z.shiftl_nonneg. lia. }
      pose proof (Z.div_pos m' (Z.pos (Z.to_pos (10 ^ (- k)))) Hm (Pos2Z.is_pos _)) as Hq.
      unfold Z.div in Hq.
      destruct (Z.div_eucl m' _) as [q r]. injection E as <- _ _. exact Hq. }
  destruct (Js.round_decimal negative m k); try reflexivity. contradiction H. reflexivity.
Qed.

(** A literal with at least one digit in its integer part is a number. *)
Lemma unsigned_literal_with_digit (negative : bool) (c : ascii) (r : string) :
  Js.is_digit c = true ->
  Js.isNaN (Js.unsigned_literal negative (String c r)) = false.
Proof.
  intros Hc. unfold Js.unsigned_literal.
  assert (Hp : String.prefix "Infinity" (String c r) = false).
  { destruct c as [[] [] [] [] [] [] [] []]; try discriminate Hc; reflexivity. }
  rewrite Hp. simpl Js.digits. rewrite Hc.
  pose proof (digits_counts_up r (Js.digit_value c) 1) as Hn.
  destruct (Js.digits r (Js.digit_value c) 1) as [[ip ni] r1].
  simpl in Hn.
  assert (Hf : forall m nf r2,
             match r1 with
             | String "." r' => Js.digits r' ip 0
             | _ => (ip, 0, r1)
             end = (m, nf, r2) -> 0 <= nf).
  { intros m nf r2 E.
    destruct r1 as [|c1 r1']; [injection E as _ <- _; lia|].
    destruct (ascii_dec c1 ".") as [->|Hne].
    - pose proof (digits_counts_up r1' ip 0) as H. rewrite E in H. exact H.
    - destruct c1 as [[] [] [] [] [] [] [] []];
        try (injection E as _ <- _; lia).
      contradiction Hne. reflexivity. }
  destruct (match r1 with
            | String "." r' => Js.digits r' ip 0
            | _ => (ip, 0, r1)
            end) as [[m nf] r2] eqn:E.
  specialize (Hf m nf r2 eq_refl).
  assert (Hlt : (0 <? ni + nf) = true) by (apply Z.ltb_lt; lia).
  rewrite Hlt. apply round_decimal_is_number.
Qed.

(** X15.  The odds are validated by [parseFloat] alone: any odds string
    that begins with a digit passes, whatever follows the number, and the
    insert is issued for a row whose odds are a number, be it an infinity,
    with the given text and the actor's identifier. *)
Theorem addPost_accepts_odds_starting_with_digit (be : Backend) (u : User)
    (p : NewPost) (s : State) (c : ascii) (r : string) :
  auth_getUser be = Fulfilled (Some u) ->
  totalOdds p = Some (String c r) ->
  Js.is_digit c = true ->
  result_of (addPost be p s) <> Throw InvalidInput /\
  exists row rest,
    trace_of (addPost be p s) = GetUser :: InsertPost row :: rest /\
    Js.isNaN (row_odds row) = false /\
    row_content row = PostContext.text p /\
    row_user_id row = user_id u.
Proof.
  intros H Ho Hc.
  assert (Hn : Js.isNaN (Js.parseFloat (oddsString p)) = false).
  { unfold oddsString. rewrite Ho. simpl Js.or_else. simpl Js.replace.
    assert (Ec : Ascii.eqb c "," = false).
    { destruct (Ascii.eqb_spec c ",") as [->|]; [discriminate Hc | reflexivity]. }
    rewrite Ec. unfold Js.parseFloat. simpl Js.trim_start.
    assert (Ew : Js.is_white c = false).
    { destruct c as [[] [] [] [] [] [] [] []]; try discriminate Hc; reflexivity. }
    rewrite Ew.
    destruct c as [[] [] [] [] [] [] [] []]; try discriminate Hc;
      apply unsigned_literal_with_digit; reflexivity. }
  split; [apply (addPost_inserts_trace be p s H Hn)|].
  destruct (addPost_inserts_row be p s H Hn) as (row & rest & Ht & Eo & Ec & _ & _ & Eu & _).
  exists row, rest. split; [exact Ht|]. split; [rewrite Eo; exact Hn|].
  split; [exact Ec | exact Eu].
Qed.

Lemma addPost_accepts_odds_starting_with_digit_witness :
  (exists row rest,
     trace_of (addPost Examples.twenty_five (Examples.draft (Some "2abc")) initial)
     = GetUser :: InsertPost row :: rest /\
     Js.isNaN (row_odds row) = false /\
     row_content row = "home win" /\
     row_user_id row = "u1") /\
  (exists row rest,
     trace_of (addPost Examples.twenty_five (Examples.draft (Some "1e400")) initial)
     = GetUser :: InsertPost row :: rest /\
     Js.isNaN (row_odds row) = false /\
     row_content row = "home win" /\
     row_user_id row = "u1") /\
  Js.parseFloat (oddsString (Examples.draft (Some "2abc"))) = Js.Finite 2 /\
  Js.parseFloat (oddsString (Examples.draft (Some "1e400"))) = Js.Infinity false.
Proof.
  split; [|split; [|split; vm_compute; reflexivity]].
  - destruct (@addPost_accepts_odds_starting_with_digit Examples.twenty_five Examples.actor
                (Examples.draft (Some "2abc")) initial "2" "abc" eq_refl eq_refl eq_refl)
      as (_ & H).
    exact H.
  - destruct (@addPost_accepts_odds_starting_with_digit Examples.twenty_five Examples.actor
                (Examples.draft (Some "1e400")) initial "1" "e400" eq_refl eq_refl eq_refl)
      as (_ & H).
    exact H.
Defined.

(** * Further properties of the feed item view *)

(** The request an activation makes and the state it aims at, as decided
    by the liked flag the render saw. *)
Lemma handleLike_settled (be : Backend) (u : User) (post localPost : PostProps) :
  handleLike be (Some u) post localPost =
    if Js.truthy_flag (isLiked localPost) then
      match delete_like be (table post) (idField post) (id localPost) (user_id u) with
      | Fulfilled _ =>
          (Return tt, with_like localPost (likes localPost - 1) false,
           [DeleteLike (table post) (idField post) (id localPost) (user_id u)])
      | Rejected e =>
          (Return tt, localPost,
           [DeleteLike (table post) (idField post) (id localPost) (user_id u);
            ConsoleError "Error toggling like:" (RemoteOperationFailed e)])
      end
    else
      match insert_like be (table post) (idField post) (id localPost) (user_id u) with
      | Fulfilled _ =>
          (Return tt, with_like localPost (likes localPost + 1) true,
           [InsertLike (table post) (idField post) (id localPost) (user_id u)])
      | Rejected e =>
          (Return tt, localPost,
           [InsertLike (table post) (idField post) (id localPost) (user_id u);
            ConsoleError "Error toggling like:" (RemoteOperationFailed e)])
      end.
Proof.
  unfold handleLike, handleLike_from, try_catch, bind, await.
  destruct (Js.truthy_flag (isLiked localPost)).
  - destruct (delete_like be _ _ _ _); reflexivity.
  - destruct (insert_like be _ _ _ _); reflexivity.
Qed.

(** X16.  An activation never throws, and it never touches anything of
    the local item but the like counter and the liked flag: the counter
    moves by one at most, and identifier, text, comment and share counters
    stay as they are, whoever the user and whatever the backend answers. *)
Theorem handleLike_frame (be : Backend) (user : option User) (post localPost : PostProps) :
  result_of (handleLike be user post localPost) = Return tt /\
  (state_of (handleLike be user post localPost) = localPost \/
   state_of (handleLike be user post localPost) = with_like localPost (likes localPost + 1) true \/
   state_of (handleLike be user post localPost) = with_like localPost (likes localPost - 1) false) /\
  id (state_of (handleLike be user post localPost)) = id localPost /\
  PostView.content (state_of (handleLike be user post localPost)) = PostView.content localPost /\
  comments (state_of (handleLike be user post localPost)) = comments localPost /\
  shares (state_of (handleLike be user post localPost)) = shares localPost /\
  - 1 <= likes (state_of (handleLike be user post localPost)) - likes localPost <= 1.
Proof.
  destruct user as [u|]; [|rewrite handleLike_anonymous; unfold result_of, state_of; simpl;
                           repeat split; auto; lia].
  rewrite handleLike_settled.
  destruct (Js.truthy_flag (isLiked localPost)).
  - destruct (delete_like be _ _ _ _); unfold result_of, state_of; simpl;
      repeat split; auto; lia.
  - destruct (insert_like be _ _ _ _); unfold result_of, state_of; simpl;
      repeat split; auto; lia.
Qed.

(** X17.  The response to the like request is not inspected: as soon as
    the request resolves, even with an error in the response, the local
    counter and flag are changed as on success and nothing is logged. *)
Theorem handleLike_ignores_error_in_response (be : Backend) (u : User)
    (post localPost : PostProps) (r : Response unit) :
  (if Js.truthy_flag (isLiked localPost)
   then delete_like be (table post) (idField post) (id localPost) (user_id u)
   else insert_like be (table post) (idField post) (id localPost) (user_id u))
  = Fulfilled r ->
  handleLike be (Some u) post localPost =
    (Return tt,
     (if Js.truthy_flag (isLiked localPost)
      then with_like localPost (likes localPost - 1) false
      else with_like localPost (likes localPost + 1) true),
     [if Js.truthy_flag (isLiked localPost)
      then DeleteLike (table post) (idField post) (id localPost) (user_id u)
      else InsertLike (table post) (idField post) (id localPost) (user_id u)]).
Proof.
  intros H. rewrite handleLike_settled.
  destruct (Js.truthy_flag (isLiked localPost)); rewrite H; reflexivity.
Qed.

Lemma handleLike_ignores_error_in_response_witness :
  error (@Scenarios.denied unit) <> None /\
  likes (state_of (handleLike Scenarios.likes_denied (Some Examples.actor)
                     (Examples.card None 7) (Examples.card None 7))) = 8 /\
  isLiked (state_of (handleLike Scenarios.likes_denied (Some Examples.actor)
                       (Examples.card None 7) (Examples.card None 7))) = Some true.
Proof.
  split; [discriminate|].
  rewrite (@handleLike_ignores_error_in_response Scenarios.likes_denied Examples.actor
             (Examples.card None 7) (Examples.card None 7) Scenarios.denied eq_refl).
  split; reflexivity.
Defined.

(** X18.  When the like request rejects, the activation logs the error
    and returns normally, and the local item is left exactly as it was. *)
Theorem handleLike_rejection_leaves_state (be : Backend) (u : User)
    (post localPost : PostProps) (e : RemoteError) :
  (if Js.truthy_flag (isLiked localPost)
   then delete_like be (table post) (idField post) (id localPost) (user_id u)
   else insert_like be (table post) (idField post) (id localPost) (user_id u))
  = Rejected e ->
  handleLike be (Some u) post localPost =
    (Return tt, localPost,
     [if Js.truthy_flag (isLiked localPost)
      then DeleteLike (table post) (idField post) (id localPost) (user_id u)
      else InsertLike (table post) (idField post) (id localPost) (user_id u);
      ConsoleError "Error toggling like:" (RemoteOperationFailed e)]).
Proof.
  intros H. rewrite handleLike_settled.
  destruct (Js.truthy_flag (isLiked localPost)); rewrite H; reflexivity.
Qed.

Lemma handleLike_rejection_leaves_state_witness :
  handleLike Scenarios.likes_offline (Some Examples.actor)
    (Examples.card (Some true) 7) (Examples.card (Some true) 7) =
    (Return tt, Examples.card (Some true) 7,
     [DeleteLike "post_likes" "post_id" "p01" "u1";
      ConsoleError "Error toggling like:"
        (RemoteOperationFailed {| message := "Failed to fetch" |})]).
Proof.
  apply (@handleLike_rejection_leaves_state Scenarios.likes_offline Examples.actor
           (Examples.card (Some true) 7) (Examples.card (Some true) 7)
           {| message := "Failed to fetch" |}).
  reflexivity.
Defined.

(** X19.  An activation by a signed-in user starts with exactly one
    request for the item's identifier and the user's: a delete when the
    render saw the item as liked, an insert otherwise; it goes to
    [news_likes] by [news_id] when the property [post] has a non-empty
    title and to [post_likes] by [post_id] when the title is missing or
    empty.  Nothing follows but, at most, one line on the console. *)
Theorem handleLike_request (be : Backend) (u : User) (post localPost : PostProps) :
  exists t f rest,
    (t, f) = (if Js.truthy (PostView.title post)
              then ("news_likes", "news_id") else ("post_likes", "post_id")) /\
    trace_of (handleLike be (Some u) post localPost)
    = (if Js.truthy_flag (isLiked localPost)
       then DeleteLike t f (id localPost) (user_id u)
       else InsertLike t f (id localPost) (user_id u)) :: rest /\
    (rest = [] \/ exists e, rest = [ConsoleError "Error toggling like:" e]).
Proof.
  exists (table post), (idField post).
  rewrite handleLike_settled. unfold table, idField.
  destruct (Js.truthy (PostView.title post));
    destruct (Js.truthy_flag (isLiked localPost));
    match goal with
    | |- context [match ?p with Fulfilled _ => _ | Rejected _ => _ end] => destruct p
    end;
    eexists; (split; [reflexivity|]); (split; [reflexivity|]); eauto.
Qed.

(** One activation whose request resolves flips the flag and moves the
    counter by one. *)
Lemma handleLike_flips (be : Backend) (u : User) (post localPost : PostProps) :
  resolves (insert_like be (table post) (idField post) (id localPost) (user_id u)) = true ->
  resolves (delete_like be (table post) (idField post) (id localPost) (user_id u)) = true ->
  id (state_of (handleLike be (Some u) post localPost)) = id localPost /\
  Js.truthy_flag (isLiked (state_of (handleLike be (Some u) post localPost)))
  = negb (Js.truthy_flag (isLiked localPost)) /\
  likes (state_of (handleLike be (Some u) post localPost))
  = likes localPost + (if Js.truthy_flag (isLiked localPost) then - 1 else 1).
Proof.
  intros Hi Hd. rewrite handleLike_settled.
  destruct (Js.truthy_flag (isLiked localPost)).
  - destruct (delete_like be _ _ _ _); [|discriminate]. repeat split.
  - destruct (insert_like be _ _ _ _); [|discriminate]. repeat split.
Qed.

(** X20.  For a signed-in user whose like requests resolve, [n]
    activations in a row leave the local counter and flag where they were
    when [n] is even, and one like up or down, with the flag flipped,
    when [n] is odd. *)
Theorem activations_parity (n : nat) (be : Backend) (u : User) (post localPost : PostProps) :
  resolves (insert_like be (table post) (idField post) (id localPost) (user_id u)) = true ->
  resolves (delete_like be (table post) (idField post) (id localPost) (user_id u)) = true ->
  Js.truthy_flag (isLiked (activations n be (Some u) post localPost))
  = (if Nat.even n then Js.truthy_flag (isLiked localPost)
     else negb (Js.truthy_flag (isLiked localPost))) /\
  likes (activations n be (Some u) post localPost)
  = likes localPost
    + (if Nat.even n then 0
       else if Js.truthy_flag (isLiked localPost) then - 1 else 1).
Proof.
  revert localPost. induction n as [n IH] using (well_founded_induction lt_wf).
  intros localPost Hi Hd.
  destruct n as [|[|n]].
  - simpl. split; [reflexivity | lia].
  - simpl. destruct (handleLike_flips be u post localPost Hi Hd) as (_ & Hf & Hl).
    split; assumption.
  - change (activations (S (S n)) be (Some u) post localPost)
      with (activations n be (Some u) post
              (state_of (handleLike be (Some u) post
                 (state_of (handleLike be (Some u) post localPost))))).
    destruct (handleLike_flips be u post localPost Hi Hd) as (Ei & Hf & Hl).
    set (once := state_of (handleLike be (Some u) post localPost)) in *.
    assert (Hi1 : resolves (insert_like be (table post) (idField post) (id once) (user_id u)) = true)
      by (rewrite Ei; exact Hi).
    assert (Hd1 : resolves (delete_like be (table post) (idField post) (id once) (user_id u)) = true)
      by (rewrite Ei; exact Hd).
    destruct (handleLike_flips be u post once Hi1 Hd1) as (Ei2 & Hf2 & Hl2).
    set (twice := state_of (handleLike be (Some u) post once)) in *.
    assert (Hi2 : resolves (insert_like be (table post) (idField post) (id twice) (user_id u)) = true)
      by (rewrite Ei2, Ei; exact Hi).
    assert (Hd2 : resolves (delete_like be (table post) (idField post) (id twice) (user_id u)) = true)
      by (rewrite Ei2, Ei; exact Hd).
    destruct (IH n (Nat.lt_lt_succ_r _ _ (Nat.lt_succ_diag_r n)) twice Hi2 Hd2) as (Hfn & Hln).
    rewrite Hfn, Hln, Hf2, Hl2, Hf, Hl.
    change (Nat.even (S (S n))) with (Nat.even n).
    destruct (Nat.even n), (Js.truthy_flag (isLiked localPost)); simpl; split;
      try reflexivity; lia.
Qed.

Lemma activations_parity_witness :
  likes (activations 4 Examples.twenty_five (Some Examples.actor)
           (Examples.card None 7) (Examples.card None 7)) = 7 + 0 /\
  likes (activations 5 Examples.twenty_five (Some Examples.actor)
           (Examples.card None 7) (Examples.card None 7)) = 7 + 1.
Proof.
  split.
  - apply (@activations_parity 4 Examples.twenty_five Examples.actor
             (Examples.card None 7) (Examples.card None 7) eq_refl eq_refl).
  - apply (@activations_parity 5 Examples.twenty_five Examples.actor
             (Examples.card None 7) (Examples.card None 7) eq_refl eq_refl).
Defined.

Lemma string_length_append (a b : string) :
  String.length (a ++ b)%string = (String.length a + String.length b)%nat.
Proof. induction a as [|c a IH]; simpl; [reflexivity | rewrite IH; reflexivity]. Qed.

Lemma slice_length (s : string) (n : nat) :
  String.length (PostBody.slice s n) = Nat.min n (String.length s).
Proof.
  revert s. induction n as [|n IH]; intros [|c r]; simpl; try reflexivity.
  rewrite IH. reflexivity.
Qed.

Lemma slice_whole (s : string) (n : nat) :
  (String.length s <= n)%nat -> PostBody.slice s n = s.
Proof.
  revert s. induction n as [|n IH]; intros [|c r]; simpl; intros H; try reflexivity.
  - lia.
  - rewrite IH; [reflexivity | lia].
Qed.

Lemma slice_is_prefix (s : string) (n : nat) :
  exists rest, s = (PostBody.slice s n ++ rest)%string.
Proof.
  revert s. induction n as [|n IH]; intros s.
  - exists s. destruct s; reflexivity.
  - destruct s as [|c r]; [exists EmptyString; reflexivity|].
    destruct (IH r) as [rest E]. exists rest. simpl. rewrite <- E. reflexivity.
Qed.

Lemma append_empty (s : string) : (s ++ "")%string = s.
Proof. induction s as [|c s IH]; simpl; [reflexivity | rewrite IH; reflexivity]. Qed.

(** X21.  A text of at most 200 characters is shown whole, without an
    ellipsis and without a toggle, whether or not the item is expanded, as
    long as the local item still has the text of the property. *)
Theorem short_text_shown_whole (expanded : bool) (post localPost : PostProps) :
  (String.length (PostView.content post) <= 200)%nat ->
  PostView.content localPost = PostView.content post ->
  PostBody.text expanded post localPost = PostView.content post /\
  PostBody.toggle expanded post = None.
Proof.
  intros Hlen Hc. unfold PostBody.text, PostBody.toggle, PostBody.shouldTruncate.
  assert (E : (PostBody.MAX_CHARS <? String.length (PostView.content post))%nat = false)
    by (apply Nat.ltb_ge; unfold PostBody.MAX_CHARS; lia).
  rewrite E, Hc. split; [|reflexivity].
  destruct expanded; [reflexivity|].
  rewrite append_empty. apply slice_whole. unfold PostBody.MAX_CHARS. exact Hlen.
Qed.

Lemma short_text_shown_whole_witness :
  PostBody.text false (Examples.card None 7) (Examples.card None 7) = "home win" /\
  PostBody.toggle false (Examples.card None 7) = None.
Proof.
  apply (@short_text_shown_whole false (Examples.card None 7) (Examples.card None 7)).
  - simpl. lia.
  - reflexivity.
Defined.

(** X22.  A text of more than 200 characters is cut, when the item is
    collapsed, to its first 200 characters followed by three dots, 203
    characters in all, and shown whole when expanded; the toggle is offered
    in both modes, as [Lire la suite] when collapsed and [Voir moins] when
    expanded. *)
Theorem long_text_truncated (post localPost : PostProps) :
  (200 < String.length (PostView.content post))%nat ->
  PostView.content localPost = PostView.content post ->
  (exists rest,
     PostView.content post = (PostBody.slice (PostView.content post) 200 ++ rest)%string /\
     PostBody.text false post localPost
     = (PostBody.slice (PostView.content post) 200 ++ "...")%string) /\
  String.length (PostBody.text false post localPost) = 203%nat /\
  PostBody.text true post localPost = PostView.content post /\
  PostBody.toggle false post = Some "Lire la suite" /\
  PostBody.toggle true post = Some "Voir moins".
Proof.
  intros Hlen Hc. unfold PostBody.text, PostBody.toggle, PostBody.shouldTruncate.
  assert (E : (PostBody.MAX_CHARS <? String.length (PostView.content post))%nat = true)
    by (apply Nat.ltb_lt; unfold PostBody.MAX_CHARS; lia).
  rewrite E, Hc. unfold PostBody.MAX_CHARS.
  split; [|split; [|repeat split]].
  - destruct (slice_is_prefix (PostView.content post) 200) as [rest Hr].
    exists rest. split; [exact Hr | reflexivity].
  - rewrite string_length_append, slice_length. simpl String.length. lia.
Qed.

Lemma long_text_truncated_witness :
  String.length (PostBody.text false Scenarios.long_card Scenarios.long_card) = 203%nat /\
  PostBody.text true Scenarios.long_card Scenarios.long_card
  = PostView.content Scenarios.long_card /\
  PostBody.toggle false Scenarios.long_card = Some "Lire la suite".
Proof.
  destruct (@long_text_truncated Scenarios.long_card Scenarios.long_card)
    as (_ & H1 & H2 & H3 & _).
  - vm_compute. lia.
  - reflexivity.
  - split; [exact H1 | split; [exact H2 | exact H3]].
Defined.

(** X23.  However often the like control is activated, the text shown for
    the item does not change: the activations leave the content of the
    local item alone. *)
Theorem activations_keep_text (n : nat) (be : Backend) (user : option User)
    (expanded : bool) (post localPost : PostProps) :
  PostView.content (activations n be user post localPost) = PostView.content localPost /\
  PostBody.text expanded post (activations n be user post localPost)
  = PostBody.text expanded post localPost.
Proof.
  assert (H : PostView.content (activations n be user post localPost)
              = PostView.content localPost).
  { revert localPost. induction n as [|n IH]; intros localPost; simpl; [reflexivity|].
    rewrite IH.
    destruct user as [u|]; [|reflexivity].
    rewrite handleLike_settled.
    destruct (Js.truthy_flag (isLiked localPost));
      [destruct (delete_like be _ _ _ _) | destruct (insert_like be _ _ _ _)];
      reflexivity. }
  split; [exact H|]. unfold PostBody.text. rewrite H. reflexivity.
Qed.

(** * Callbacks of one render *)

(** X24.  The guard reads [loading] as captured by the render.  Two calls
    of the same callback therefore both pass it, both request the same
    page, and, when the queries succeed, both append the same new items:
    the held list gets them twice and the page counter advances by two. *)
Theorem fetchMorePosts_twice_from_same_render (be : Backend) (c : State)
    (rp : Response (list Post.t)) (rn : Response (list News.t)) :
  loading c = false -> hasMore c = true ->
  select_posts be (range_from c) (range_to c) = Fulfilled rp ->
  select_news be (range_from c) (range_to c) = Fulfilled rn ->
  error rp = None -> error rn = None ->
  fetchMorePosts_twice_from c be c =
    (Return tt,
     {| posts := (posts c ++ uniqueContent (posts c) (allContent rp rn))
                 ++ uniqueContent (posts c) (allContent rp rn);
        loading := false;
        hasMore := Z.of_nat (length (uniqueContent (posts c) (allContent rp rn)))
                   =? POSTS_PER_PAGE;
        page := page c + 1 + 1 |},
     [Select "posts" (range_from c) (range_to c);
      Select "news" (range_from c) (range_to c);
      Select "posts" (range_from c) (range_to c);
      Select "news" (range_from c) (range_to c)]) /\
  (uniqueContent (posts c) (allContent rp rn) <> [] ->
   ~ distinct_ids (posts (state_of (fetchMorePosts_twice_from c be c)))).
Proof.
  unfold range_from, range_to. intros Hl Hm Hp Hn Ep En.
  match goal with |- ?A = ?B /\ _ => assert (E : A = B) end.
  { unfold fetchMorePosts_twice_from, fetchMorePosts_from. rewrite Hl, Hm. simpl.
    unfold bind, try_finally, try_catch, await_all, setLoading, update. simpl.
    rewrite Hp, Hn. unfold throw_if_error. rewrite Ep, En. simpl. reflexivity. }
  split; [exact E|].
  intros Hne. rewrite E. unfold state_of, distinct_ids; simpl.
  destruct (uniqueContent (posts c) (allContent rp rn)) as [|x u]; [congruence|].
  rewrite !map_app. simpl. intros Hd.
  apply NoDup_remove_2 in Hd. apply Hd.
  rewrite !in_app_iff. left. right. left. reflexivity.
Qed.

Lemma fetchMorePosts_twice_from_same_render_witness :
  length (posts (state_of (fetchMorePosts_twice_from initial Examples.twenty_five initial)))
  = 50%nat /\
  page (state_of (fetchMorePosts_twice_from initial Examples.twenty_five initial)) = 2 /\
  ~ distinct_ids (posts (state_of (fetchMorePosts_twice_from initial Examples.twenty_five initial))).
Proof.
  destruct (@fetchMorePosts_twice_from_same_render Examples.twenty_five initial
              (Examples.ok Examples.fifteen_predictions) (Examples.ok Examples.ten_news)
              eq_refl eq_refl eq_refl eq_refl eq_refl eq_refl) as (E & H).
  split; [rewrite E; reflexivity|]. split; [rewrite E; reflexivity|].
  apply H. vm_compute. intros H0. discriminate H0.
Defined.

(** X25.  Two activations of the like callback of one render, whose
    requests resolve, both act on the flag that render saw: on an item not
    seen as liked two inserts are issued and the counter goes up by two;
    on an item seen as liked two deletes are issued and it goes down by
    two. *)
Theorem handleLike_twice_from_same_render (be : Backend) (u : User)
    (post localPost : PostProps) :
  resolves (insert_like be (table post) (idField post) (id localPost) (user_id u)) = true ->
  resolves (delete_like be (table post) (idField post) (id localPost) (user_id u)) = true ->
  likes (state_of (handleLike_twice_from localPost be (Some u) post localPost))
  = likes localPost + (if Js.truthy_flag (isLiked localPost) then - 2 else 2) /\
  trace_of (handleLike_twice_from localPost be (Some u) post localPost)
  = (if Js.truthy_flag (isLiked localPost)
     then [DeleteLike (table post) (idField post) (id localPost) (user_id u);
           DeleteLike (table post) (idField post) (id localPost) (user_id u)]
     else [InsertLike (table post) (idField post) (id localPost) (user_id u);
           InsertLike (table post) (idField post) (id localPost) (user_id u)]).
Proof.
  intros Hi Hd.
  unfold handleLike_twice_from, handleLike_from, try_catch, bind, await, state_of, trace_of.
  destruct (Js.truthy_flag (isLiked localPost)).
  - destruct (delete_like be _ _ _ _); [|discriminate]. simpl. split; [lia | reflexivity].
  - destruct (insert_like be _ _ _ _); [|discriminate]. simpl. split; [lia | reflexivity].
Qed.

Lemma handleLike_twice_from_same_render_witness :
  likes (state_of (handleLike_twice_from (Examples.card None 7) Examples.twenty_five
                     (Some Examples.actor) (Examples.card None 7) (Examples.card None 7)))
  = 7 + 2.
Proof.
  destruct (@handleLike_twice_from_same_render Examples.twenty_five Examples.actor
              (Examples.card None 7) (Examples.card None 7) eq_refl eq_refl) as (H & _).
  exact H.
Defined.

(** Three items published at the same instant come out in the order of
    the concatenation. *)
Example ties_in_query_order :
  map item_id
    (allContent (Examples.ok [Examples.prediction "p2" 5; Examples.prediction "p1" 5])
                (Examples.ok [Examples.article "n1" 5]))
  = ["p2"; "p1"; "n1"].
Proof. reflexivity. Qed.
